(** * The Apple gmux driver (apple_gmux.c), embedded in Rocq

    The driver talks to three things it does not own: the gmux chip behind an
    I/O port window, the ACPI firmware, and a handful of kernel services.
    Every such interaction is recorded as an [event] in a chronological
    [trace]; the answers come from a [platform], an arbitrary function of the
    history so far.  Driver functions are computations in a small state monad
    over the [machine] (driver globals, platform, trace). *)

From Stdlib Require Import ZArith List String Bool Lia.
Import ListNotations.
Local Open Scope string_scope.
Local Open Scope list_scope.
Local Open Scope Z_scope.

(** ** C integer conversions *)

Definition u8 (z : Z) : Z := z mod 256.
Definition u32 (z : Z) : Z := z mod 2 ^ 32.
Definition u64 (z : Z) : Z := z mod 2 ^ 64.
(** Conversion to a 32-bit [int] (two's complement wrap-around). *)
Definition to_int (z : Z) : Z := (z + 2 ^ 31) mod 2 ^ 32 - 2 ^ 31.

(** ** Constants that come from kernel headers

    The enumerators of [enum vga_switcheroo_client_id] and
    [enum vga_switcheroo_state], the PCI vendor ids, the errno values and the
    jiffies conversion are declared in kernel headers, not in the driver. *)

Class kernel_abi := {
  VGA_SWITCHEROO_IGD : Z;
  VGA_SWITCHEROO_DIS : Z;
  VGA_SWITCHEROO_OFF : Z;
  VGA_SWITCHEROO_ON : Z;
  PCI_VENDOR_ID_INTEL : Z;
  PCI_VENDOR_ID_NVIDIA : Z;
  ENODEV : Z;
  ENXIO : Z;
  ENOMEM : Z;
  msecs_to_jiffies : Z -> Z;
  acpi_format_exception : Z -> string
}.

(** The values of a Linux 3.x x86 build with HZ = 1000. *)
Definition linux_abi : kernel_abi := {|
  VGA_SWITCHEROO_IGD := 0;
  VGA_SWITCHEROO_DIS := 1;
  VGA_SWITCHEROO_OFF := 0;
  VGA_SWITCHEROO_ON := 1;
  PCI_VENDOR_ID_INTEL := 0x8086;
  PCI_VENDOR_ID_NVIDIA := 0x10de;
  ENODEV := 19;
  ENXIO := 6;
  ENOMEM := 12;
  msecs_to_jiffies := fun ms => ms;
  acpi_format_exception := fun _ => "AE_ERROR"
|}.

(** ** Events, platform and machine *)

Inductive arg : Type :=
| AInt (z : Z)
| AStr (s : string).

Inductive loglevel : Type := KERN_ERR | KERN_WARNING | KERN_INFO | KERN_DEFAULT.

Inductive event : Type :=
| EvInb (port v : Z)                       (* v = inb(port) *)
| EvInl (port v : Z)                       (* v = inl(port) *)
| EvOutb (val port : Z)                    (* outb(val, port) *)
| EvPrintk (lvl : loglevel) (fmt : string) (args : list arg)
| EvInitCompletion                         (* init_completion(&powerchange_done) *)
| EvComplete                               (* complete(&powerchange_done) *)
| EvCall (fn : string) (args : list arg) (ret : Z) (out : list arg).

(** What the hardware, the firmware and the kernel answer, given everything
    that happened before. *)
Record platform : Type := {
  env_inb : list event -> Z -> Z;
  env_inl : list event -> Z -> Z;
  env_call : list event -> string -> list arg -> Z * list arg
}.

(** [static struct apple_gmux_data gmux_data]. Pointers and handles are
    integers, 0 being NULL. *)
Record apple_gmux_data : Type := {
  iostart : Z;
  iolen : Z;
  dhandle : Z;
  resume_client_id : Z;
  bdev : Z
}.

Record machine : Type := {
  gmux_data : apple_gmux_data;
  world : platform;
  trace : list event
}.

Definition add_events (evs : list event) (m : machine) : machine :=
  {| gmux_data := gmux_data m; world := world m; trace := trace m ++ evs |}.

Definition set_gmux_data (d : apple_gmux_data) (m : machine) : machine :=
  {| gmux_data := d; world := world m; trace := trace m |}.

(** ** The monad *)

Definition M (A : Type) : Type := machine -> A * machine.

Definition ret {A} (a : A) : M A := fun m => (a, m).
Definition bind {A B} (c : M A) (k : A -> M B) : M B :=
  fun m => let (a, m') := c m in k a m'.

Declare Scope gmux_scope.
Delimit Scope gmux_scope with gmux.
Notation "x <- c ;; k" := (bind c (fun x => k))
  (at level 61, c at next level, right associativity) : gmux_scope.
Notation "c ;; k" := (bind c (fun _ => k))
  (at level 61, right associativity) : gmux_scope.
Local Open Scope gmux_scope.

Definition emit (e : event) : M unit := fun m => (tt, add_events [e] m).
Definition get_data : M apple_gmux_data := fun m => (gmux_data m, m).
Definition put_data (d : apple_gmux_data) : M unit := fun m => (tt, set_gmux_data d m).

(** Port input and output. [inb] yields an unsigned char, [inl] an unsigned
    int, [outb] takes an unsigned char. *)
Definition inb (port : Z) : M Z := fun m =>
  let v := u8 (env_inb (world m) (trace m) port) in (v, add_events [EvInb port v] m).
Definition inl (port : Z) : M Z := fun m =>
  let v := u32 (env_inl (world m) (trace m) port) in (v, add_events [EvInl port v] m).
Definition outb (val port : Z) : M unit := emit (EvOutb (u8 val) port).

(** A kernel or firmware service: its return value and out-parameters are the
    platform's. *)
Definition kcall (fn : string) (args : list arg) : M (Z * list arg) := fun m =>
  let r := env_call (world m) (trace m) fn args in
  (r, add_events [EvCall fn args (fst r) (snd r)] m).

Definition printk (lvl : loglevel) (fmt : string) (args : list arg) : M unit :=
  emit (EvPrintk lvl fmt args).
(** [pr_err] and [pr_info]; the module-name prefix that [pr_fmt] adds is the
    build's and is left out of the recorded format. *)
Definition pr_err := printk KERN_ERR.
Definition pr_info := printk KERN_INFO.

Definition init_completion : M unit := emit EvInitCompletion.
Definition complete : M unit := emit EvComplete.

(** An out-parameter that holds an integer or a pointer; a service that did
    not set it leaves the caller's initial value. *)
Definition out_int (dflt : Z) (out : list arg) : Z :=
  match out with AInt z :: _ => z | _ => dflt end.
Definition out_str (out : list arg) : string :=
  match out with AStr s :: _ => s | _ => "" end.

(** [ACPI_FAILURE(status)]: any status other than AE_OK (0). *)
Definition ACPI_FAILURE (status : Z) : bool := negb (status =? 0).

(** ** gmux port offsets *)

Definition GMUX_PORT_VERSION_MAJOR : Z := 0x04.
Definition GMUX_PORT_VERSION_MINOR : Z := 0x05.
Definition GMUX_PORT_VERSION_RELEASE : Z := 0x06.
Definition GMUX_PORT_SWITCH_DISPLAY : Z := 0x10.
Definition GMUX_PORT_SWITCH_GET_DISPLAY : Z := 0x11.
Definition GMUX_PORT_INTERRUPT_ENABLE : Z := 0x14.
Definition GMUX_PORT_INTERRUPT_STATUS : Z := 0x16.
Definition GMUX_PORT_SWITCH_DDC : Z := 0x28.
Definition GMUX_PORT_SWITCH_EXTERNAL : Z := 0x40.
Definition GMUX_PORT_SWITCH_GET_EXTERNAL : Z := 0x41.
Definition GMUX_PORT_DISCRETE_POWER : Z := 0x50.
Definition GMUX_PORT_MAX_BRIGHTNESS : Z := 0x70.
Definition GMUX_PORT_BRIGHTNESS : Z := 0x74.

Definition GMUX_MIN_IO_LEN : Z := GMUX_PORT_BRIGHTNESS + 4.

Definition GMUX_INTERRUPT_ENABLE : Z := 0xff.
Definition GMUX_INTERRUPT_DISABLE : Z := 0x00.

Definition GMUX_INTERRUPT_STATUS_ACTIVE : Z := 0.
Definition GMUX_INTERRUPT_STATUS_DISPLAY : Z := Z.shiftl 1 0.
Definition GMUX_INTERRUPT_STATUS_POWER : Z := Z.shiftl 1 2.
Definition GMUX_INTERRUPT_STATUS_HOTPLUG : Z := Z.shiftl 1 3.

Definition GMUX_BRIGHTNESS_MASK : Z := 0x00ffffff.
Definition GMUX_MAX_BRIGHTNESS : Z := GMUX_BRIGHTNESS_MASK.

(** ** Structures handed in by the kernel *)

Record backlight_properties : Type := {
  brightness : Z;
  max_brightness : Z
}.

Record backlight_device : Type := { props : backlight_properties }.

Record pci_dev : Type := { vendor : Z; device : Z }.

Record resource : Type := { res_start : Z; res_end : Z }.

(** What the probe looks up in its [struct pnp_dev]: the first I/O resource
    ([pnp_get_resource(pnp, IORESOURCE_IO, 0)], NULL when absent), the ACPI
    handle ([DEVICE_ACPI_HANDLE(&pnp->dev)]) and the device name. *)
Record pnp_dev : Type := {
  pnp_io_resource : option resource;
  pnp_acpi_handle : Z;
  pnp_dev_name : string
}.

(** ** The driver *)

Section Driver.
Context {abi : kernel_abi}.

(** The driver adds the port offset to [iostart] in unsigned long. The
    model records the exact sum, which is the same port whenever the window
    does not wrap around the unsigned long range; a property that depends
    on this states it as a hypothesis. *)
Definition gmux_read8 (port : Z) : M Z :=
  d <- get_data ;; inb (iostart d + port).

Definition gmux_write8 (port val : Z) : M unit :=
  d <- get_data ;; outb val (iostart d + port).

Definition gmux_read32 (port : Z) : M Z :=
  d <- get_data ;; inl (iostart d + port).

Definition gmux_get_brightness (bd : backlight_device) : M Z :=
  v <- gmux_read32 GMUX_PORT_BRIGHTNESS ;;
  ret (to_int (Z.land v GMUX_BRIGHTNESS_MASK)).

Definition gmux_update_status (bd : backlight_device) : M Z :=
  let brightness := u32 (brightness (props bd)) in
  gmux_write8 GMUX_PORT_BRIGHTNESS brightness ;;
  gmux_write8 (GMUX_PORT_BRIGHTNESS + 1) (Z.shiftr brightness 8) ;;
  gmux_write8 (GMUX_PORT_BRIGHTNESS + 2) (Z.shiftr brightness 16) ;;
  gmux_write8 (GMUX_PORT_BRIGHTNESS + 3) 0 ;;
  ret 0.

Definition gmux_switchto (id : Z) : M Z :=
  (if id =? VGA_SWITCHEROO_IGD then
     gmux_write8 GMUX_PORT_SWITCH_DDC 1 ;;
     gmux_write8 GMUX_PORT_SWITCH_DISPLAY 2 ;;
     gmux_write8 GMUX_PORT_SWITCH_EXTERNAL 2
   else
     gmux_write8 GMUX_PORT_SWITCH_DDC 2 ;;
     gmux_write8 GMUX_PORT_SWITCH_DISPLAY 3 ;;
     gmux_write8 GMUX_PORT_SWITCH_EXTERNAL 3) ;;
  ret 0.

Definition gmux_switchddc (id : Z) : M Z :=
  (if id =? VGA_SWITCHEROO_IGD then
     pr_info "switch ddc to IGD\n" [] ;;
     gmux_write8 GMUX_PORT_SWITCH_DDC 1
   else
     pr_info "switch ddc to DIS\n" [] ;;
     gmux_write8 GMUX_PORT_SWITCH_DDC 2) ;;
  ret 0.

Definition gmux_call_acpi_pwrd (arg : Z) : M Z :=
  (* TODO: don't hardcode this *)
  let method := "\_SB_.PCI0.P0P2.GFX0.PWRD" in
  r <- kcall "acpi_get_handle" [AInt 0; AStr method] ;;
  let status := fst r in
  let pwrd_handle := out_int 0 (snd r) in
  if ACPI_FAILURE status then
    pr_err "Cannot get PWRD handle: %s\n" [AStr (acpi_format_exception status)] ;;
    ret (- ENODEV)
  else
    (* arg0.integer.value = arg: the int becomes the 64-bit ACPI integer *)
    let arg0 := u64 arg in
    r <- kcall "acpi_evaluate_object" [AInt pwrd_handle; AInt 0; AInt arg0] ;;
    let status := fst r in
    let buffer_pointer := out_int 0 (snd r) in
    if ACPI_FAILURE status then
      pr_err "PWRD call failed: %s\n" [AStr (acpi_format_exception status)] ;;
      ret (- ENODEV)
    else
      kcall "kfree" [AInt buffer_pointer] ;;
      pr_info "PWRD call successful\n" [] ;;
      ret 0.

(** [wait_for_completion_interruptible_timeout(&powerchange_done, timeout)]:
    a kernel service; by its contract the result is 0 when the timeout
    elapsed, positive (the jiffies left) when the completion was fulfilled in
    time, and negative when a signal interrupted the wait. *)
Definition wait_for_completion_interruptible_timeout (timeout : Z) : M Z :=
  r <- kcall "wait_for_completion_interruptible_timeout" [AInt timeout] ;;
  ret (fst r).

Definition gmux_set_discrete_state (state : Z) : M Z :=
  (* TODO: locking for completions needed? *)
  init_completion ;;
  (if state =? VGA_SWITCHEROO_ON then
     gmux_call_acpi_pwrd 0 ;;
     gmux_write8 GMUX_PORT_DISCRETE_POWER 1 ;;
     gmux_write8 GMUX_PORT_DISCRETE_POWER 3 ;;
     pr_info "discrete card powered up\n" []
   else
     gmux_write8 GMUX_PORT_DISCRETE_POWER 1 ;;
     gmux_write8 GMUX_PORT_DISCRETE_POWER 0 ;;
     gmux_call_acpi_pwrd 1 ;;
     pr_info "discrete card powered down\n" []) ;;
  w <- wait_for_completion_interruptible_timeout (msecs_to_jiffies 200) ;;
  (if negb (w =? 0) then pr_info "completion timeout\n" [] else ret tt) ;;
  ret 0.

Definition gmux_set_power_state (id state : Z) : M Z :=
  if id =? VGA_SWITCHEROO_IGD then ret 0
  else gmux_set_discrete_state state.

Definition gmux_init : M Z := ret 0.

Definition gmux_get_client_id (pdev : pci_dev) : Z :=
  (* early mbps with switchable graphics use nvidia integrated graphics,
     hardcode that the 9400M is integrated *)
  if vendor pdev =? PCI_VENDOR_ID_INTEL then VGA_SWITCHEROO_IGD
  else if (vendor pdev =? PCI_VENDOR_ID_NVIDIA) && (device pdev =? 0x0863)
       then VGA_SWITCHEROO_IGD
  else VGA_SWITCHEROO_DIS.

Definition gmux_disable_interrupts : M unit :=
  gmux_write8 GMUX_PORT_INTERRUPT_ENABLE GMUX_INTERRUPT_DISABLE.

Definition gmux_enable_interrupts : M unit :=
  gmux_write8 GMUX_PORT_INTERRUPT_ENABLE GMUX_INTERRUPT_ENABLE.

Definition gmux_interrupt_get_status : M Z :=
  gmux_read8 GMUX_PORT_INTERRUPT_STATUS.

Definition gmux_interrupt_activate_status : M unit :=
  (* to reactivate interrupts write back current status *)
  old_status <- gmux_read8 GMUX_PORT_INTERRUPT_STATUS ;;
  gmux_write8 GMUX_PORT_INTERRUPT_STATUS old_status ;;
  new_status <- gmux_read8 GMUX_PORT_INTERRUPT_STATUS ;;
  (* status = 0 indicates active interrupts *)
  if negb (new_status =? 0) then
    pr_info "gmux: error: activate_status, old_status %d new_status %d\n"
            [AInt old_status; AInt new_status]
  else ret tt.

Definition gmux_notify_handler : M unit :=
  status <- gmux_interrupt_get_status ;;
  gmux_disable_interrupts ;;
  pr_info "gmux: gpe handler called: status %d\n" [AInt status] ;;
  gmux_interrupt_activate_status ;;
  gmux_enable_interrupts ;;
  if negb (Z.land status GMUX_INTERRUPT_STATUS_POWER =? 0) then complete
  else ret tt.

Definition set_resume_client_id (id : Z) (d : apple_gmux_data) : apple_gmux_data :=
  {| iostart := iostart d; iolen := iolen d; dhandle := dhandle d;
     resume_client_id := id; bdev := bdev d |}.

Definition gmux_suspend : M Z :=
  v <- gmux_read8 GMUX_PORT_SWITCH_DISPLAY ;;
  d <- get_data ;;
  put_data (set_resume_client_id
              (if v =? 2 then VGA_SWITCHEROO_IGD else VGA_SWITCHEROO_DIS) d) ;;
  ret 0.

Definition gmux_resume : M Z :=
  d <- get_data ;;
  gmux_switchto (resume_client_id d) ;;
  ret 0.

(** [unsigned long] arithmetic (64-bit build). *)
Definition ulong (z : Z) : Z := z mod 2 ^ 64.

(** [IS_ERR(ptr)]: the top 4095 addresses encode an errno. *)
Definition IS_ERR (ptr : Z) : bool := (- 4095 <=? ptr) && (ptr <? 0).

Definition release_region (start len : Z) : M unit :=
  kcall "release_region" [AInt start; AInt len] ;; ret tt.

Definition backlight_device_unregister (bd : Z) : M unit :=
  kcall "backlight_device_unregister" [AInt bd] ;; ret tt.

Definition acpi_remove_notify_handler (handle : Z) : M Z :=
  r <- kcall "acpi_remove_notify_handler"
             [AInt handle; AStr "ACPI_DEVICE_NOTIFY"; AStr "gmux_notify_handler"] ;;
  ret (fst r).

(** The labels at the end of [gmux_probe]; each falls through to the next. *)
Definition err_begin (r : Z) : M Z := ret r.

Definition err_release (r : Z) : M Z :=
  d <- get_data ;;
  release_region (iostart d) (iolen d) ;;
  err_begin r.

Definition err_notify (bd r : Z) : M Z :=
  backlight_device_unregister bd ;;
  err_release r.

Definition err_register (bd r : Z) : M Z :=
  d <- get_data ;;
  status <- acpi_remove_notify_handler (dhandle d) ;;
  (if ACPI_FAILURE status then
     printk KERN_DEFAULT "Install notify handler failed: %s\n"
            [AStr (acpi_format_exception status)]
   else ret tt) ;;
  err_notify bd r.

Definition gmux_probe (pnp : pnp_dev) : M Z :=
  let r := - ENXIO in
  match pnp_io_resource pnp with
  | None =>
      pr_err "Failed to find gmux I/O resource\n" [] ;;
      err_begin r
  | Some res =>
      d <- get_data ;;
      let start := ulong (res_start res) in
      let len := ulong (res_end res - res_start res) in
      put_data {| iostart := start; iolen := len; dhandle := dhandle d;
                  resume_client_id := resume_client_id d; bdev := bdev d |} ;;
      if len <? GMUX_MIN_IO_LEN then
        pr_err "gmux I/O region too small (%lu < %u)\n" [AInt len; AInt GMUX_MIN_IO_LEN] ;;
        err_begin r
      else
      rr <- kcall "request_region" [AInt start; AInt len; AStr "Apple gmux"] ;;
      if fst rr =? 0 then
        pr_err "gmux I/O already in use\n" [] ;;
        err_begin r
      else
      (* On some machines the gmux is in ACPI even thought the machine
         doesn't really have a gmux. Check for invalid version information
         to detect this. *)
      ver_major <- gmux_read8 GMUX_PORT_VERSION_MAJOR ;;
      ver_minor <- gmux_read8 GMUX_PORT_VERSION_MINOR ;;
      ver_release <- gmux_read8 GMUX_PORT_VERSION_RELEASE ;;
      if (ver_major =? 0xff) && (ver_minor =? 0xff) && (ver_release =? 0xff) then
        pr_info "gmux device not present\n" [] ;;
        err_release (- ENODEV)
      else
      pr_info "Found gmux version %d.%d.%d\n"
              [AInt ver_major; AInt ver_minor; AInt ver_release] ;;
      mb <- gmux_read32 GMUX_PORT_MAX_BRIGHTNESS ;;
      let mb := to_int mb in
      (* Currently it's assumed that the maximum brightness is less than
         2^24 for compatibility with old gmux versions. Cap the max
         brightness at this value, but print a warning if the hardware
         reports something higher so that it can be fixed. *)
      mb <- (if GMUX_MAX_BRIGHTNESS <? mb then
               printk KERN_WARNING "WARN_ON(props.max_brightness > GMUX_MAX_BRIGHTNESS)" [] ;;
               ret GMUX_MAX_BRIGHTNESS
             else ret mb) ;;
      rb <- kcall "backlight_device_register"
                  [AStr "gmux_backlight"; AStr (pnp_dev_name pnp); AInt 0; AInt mb] ;;
      let bd := fst rb in
      if IS_ERR bd then err_release (to_int bd)
      else
      d <- get_data ;;
      put_data {| iostart := iostart d; iolen := iolen d; dhandle := dhandle d;
                  resume_client_id := resume_client_id d; bdev := bd |} ;;
      b <- gmux_get_brightness {| props := {| brightness := 0; max_brightness := mb |} |} ;;
      (* backlight_update_status(bdev) calls the update_status operation *)
      gmux_update_status {| props := {| brightness := b; max_brightness := mb |} |} ;;
      d <- get_data ;;
      put_data {| iostart := iostart d; iolen := iolen d; dhandle := pnp_acpi_handle pnp;
                  resume_client_id := resume_client_id d; bdev := bdev d |} ;;
      if pnp_acpi_handle pnp =? 0 then
        pr_err "Cannot find acpi device for pnp device %s\n" [AStr (pnp_dev_name pnp)] ;;
        err_release r
      else
      rn <- kcall "acpi_get_name" [AInt (pnp_acpi_handle pnp); AStr "ACPI_SINGLE_NAME"] ;;
      pr_info "Found acpi handle for pnp device %s: %s\n"
              [AStr (pnp_dev_name pnp); AStr (out_str (snd rn))] ;;
      kcall "kfree" [AStr (out_str (snd rn))] ;;
      ri <- kcall "acpi_install_notify_handler"
                  [AInt (pnp_acpi_handle pnp); AStr "ACPI_DEVICE_NOTIFY";
                   AStr "gmux_notify_handler"] ;;
      if ACPI_FAILURE (fst ri) then
        printk KERN_DEFAULT "Install notify handler failed: %s\n"
               [AStr (acpi_format_exception (fst ri))] ;;
        err_notify bd r
      else
      rv <- kcall "vga_switcheroo_register_handler" [AStr "gmux_handler"] ;;
      if negb (fst rv =? 0) then err_register bd r
      else
      init_completion ;;
      gmux_enable_interrupts ;;
      ret 0
  end.

Definition gmux_remove : M unit :=
  kcall "vga_switcheroo_unregister_handler" [] ;;
  d <- get_data ;;
  backlight_device_unregister (bdev d) ;;
  gmux_disable_interrupts ;;
  status <- acpi_remove_notify_handler (dhandle d) ;;
  (if ACPI_FAILURE status then
     printk KERN_DEFAULT "Install notify handler failed: %s\n"
            [AStr (acpi_format_exception status)]
   else ret tt) ;;
  d <- get_data ;;
  release_region (iostart d) (iolen d).

End Driver.

(** ** The earlier revision of the driver (the second source file)

    It shares the register layer, the brightness operations and
    [gmux_switchto] with the revision above. It has no firmware call, no
    [switchddc], no suspend and resume hooks, waits for the power change
    without a timeout, and hangs its handler on a GPE. *)

Module Part000.
Section Driver.
Context {abi : kernel_abi}.

(** [wait_for_completion(&powerchange_done)] has no timeout: the caller
    resumes only once the completion is fulfilled. The platform answers
    whether that ever happens (non-zero) or not (0). *)
Definition wait_for_completion : M bool :=
  r <- kcall "wait_for_completion" [] ;;
  ret (negb (fst r =? 0)).

(** [None]: the call never returns. *)
Definition gmux_set_discrete_state (state : Z) : M (option Z) :=
  (* TODO: locking for completions needed? *)
  init_completion ;;
  (if state =? VGA_SWITCHEROO_ON then
     gmux_write8 GMUX_PORT_DISCRETE_POWER 1 ;;
     gmux_write8 GMUX_PORT_DISCRETE_POWER 3 ;;
     pr_info "discrete powered up\n" []
   else
     gmux_write8 GMUX_PORT_DISCRETE_POWER 0 ;;
     pr_info "discrete powered down\n" []) ;;
  (* TODO: add timeout *)
  pr_info "before completion\n" [] ;;
  done <- wait_for_completion ;;
  if done then
    pr_info "after completion\n" [] ;;
    ret (Some 0)
  else ret None.

Definition gmux_set_power_state (id state : Z) : M (option Z) :=
  if id =? VGA_SWITCHEROO_IGD then ret (Some 0)
  else gmux_set_discrete_state state.

Definition gmux_get_client_id (pdev : pci_dev) : Z :=
  if vendor pdev =? 0x8086 (* TODO: better detection, see bbswitch *)
  then VGA_SWITCHEROO_IGD
  else VGA_SWITCHEROO_DIS.

Definition gmux_interrupt_activate_status : M unit :=
  (* to reactivate interrupts write back current status *)
  old_status <- gmux_interrupt_get_status ;;
  gmux_write8 GMUX_PORT_INTERRUPT_STATUS old_status ;;
  new_status <- gmux_interrupt_get_status ;;
  (* status = 0 indicates active interrupts *)
  if negb (new_status =? 0) then
    pr_info "gmux: error: activate_status, old_status %d new_status %d\n"
            [AInt old_status; AInt new_status]
  else ret tt.

Definition gmux_gpe_handler : M Z :=
  status <- gmux_interrupt_get_status ;;
  gmux_disable_interrupts ;;
  pr_info "gmux: gpe handler called: status %d\n" [AInt status] ;;
  gmux_interrupt_activate_status ;;
  gmux_enable_interrupts ;;
  (* TODO: & *)
  (if status =? GMUX_INTERRUPT_STATUS_POWER then complete else ret tt) ;;
  ret 0.

Definition err_free (p r : Z) : M Z :=
  kcall "kfree" [AInt p] ;; ret r.

Definition err_release (p r : Z) : M Z :=
  d <- get_data ;;
  release_region (iostart d) (iolen d) ;;
  err_free p r.

Definition err_enable_gpe (bd p r : Z) : M Z :=
  backlight_device_unregister bd ;;
  err_release p r.

Definition err_switcheroo (bd p r : Z) : M Z :=
  kcall "acpi_remove_gpe_handler" [AInt 0; AInt 0x16; AStr "gmux_gpe_handler"] ;;
  err_enable_gpe bd p r.

Definition gmux_probe (pnp : pnp_dev) : M Z :=
  let r := - ENXIO in
  rk <- kcall "kzalloc" [AStr "sizeof(*gmux_data)"; AStr "GFP_KERNEL"] ;;
  let p := fst rk in
  if p =? 0 then ret (- ENOMEM)
  else
  put_data {| iostart := 0; iolen := 0; dhandle := 0; resume_client_id := 0; bdev := 0 |} ;;
  kcall "pnp_set_drvdata" [AInt p] ;;
  match pnp_io_resource pnp with
  | None =>
      pr_err "Failed to find gmux I/O resource\n" [] ;;
      err_free p r
  | Some res =>
      d <- get_data ;;
      let start := ulong (res_start res) in
      let len := ulong (res_end res - res_start res) in
      put_data {| iostart := start; iolen := len; dhandle := dhandle d;
                  resume_client_id := resume_client_id d; bdev := bdev d |} ;;
      if len <? GMUX_MIN_IO_LEN then
        pr_err "gmux I/O region too small (%lu < %u)\n" [AInt len; AInt GMUX_MIN_IO_LEN] ;;
        err_free p r
      else
      rr <- kcall "request_region" [AInt start; AInt len; AStr "Apple gmux"] ;;
      if fst rr =? 0 then
        pr_err "gmux I/O already in use\n" [] ;;
        err_free p r
      else
      ver_major <- gmux_read8 GMUX_PORT_VERSION_MAJOR ;;
      ver_minor <- gmux_read8 GMUX_PORT_VERSION_MINOR ;;
      ver_release <- gmux_read8 GMUX_PORT_VERSION_RELEASE ;;
      if (ver_major =? 0xff) && (ver_minor =? 0xff) && (ver_release =? 0xff) then
        pr_info "gmux device not present\n" [] ;;
        err_release p (- ENODEV)
      else
      pr_info "Found gmux version %d.%d.%d\n"
              [AInt ver_major; AInt ver_minor; AInt ver_release] ;;
      mb <- gmux_read32 GMUX_PORT_MAX_BRIGHTNESS ;;
      let mb := to_int mb in
      mb <- (if GMUX_MAX_BRIGHTNESS <? mb then
               printk KERN_WARNING "WARN_ON(props.max_brightness > GMUX_MAX_BRIGHTNESS)" [] ;;
               ret GMUX_MAX_BRIGHTNESS
             else ret mb) ;;
      rb <- kcall "backlight_device_register"
                  [AStr "gmux_backlight"; AStr (pnp_dev_name pnp); AInt p; AInt mb] ;;
      let bd := fst rb in
      if IS_ERR bd then err_release p (to_int bd)
      else
      d <- get_data ;;
      put_data {| iostart := iostart d; iolen := iolen d; dhandle := dhandle d;
                  resume_client_id := resume_client_id d; bdev := bd |} ;;
      b <- gmux_get_brightness {| props := {| brightness := 0; max_brightness := mb |} |} ;;
      gmux_update_status {| props := {| brightness := b; max_brightness := mb |} |} ;;
      let dh := pnp_acpi_handle pnp in
      if dh =? 0 then
        pr_err "Cannot find acpi device for pnp device %s\n" [AStr (pnp_dev_name pnp)] ;;
        err_release p r
      else
      rn <- kcall "acpi_get_name" [AInt dh; AStr "ACPI_FULL_PATHNAME"] ;;
      pr_info "Found acpi handle for pnp device %s: %s\n"
              [AStr (pnp_dev_name pnp); AStr (out_str (snd rn))] ;;
      kcall "kfree" [AStr (out_str (snd rn))] ;;
      (* TODO: use dhandle? *)
      ri <- kcall "acpi_install_gpe_handler"
                  [AInt 0; AInt 0x16; AStr "ACPI_GPE_LEVEL_TRIGGERED";
                   AStr "gmux_gpe_handler"; AInt dh] ;;
      if ACPI_FAILURE (fst ri) then
        printk KERN_DEFAULT "Install gpe handler failed: %s\n"
               [AStr (acpi_format_exception (fst ri))] ;;
        err_release p r
      else
      re <- kcall "acpi_enable_gpe" [AInt 0; AInt 0x16] ;;
      if ACPI_FAILURE (fst re) then
        pr_err "Enable gpe failed: %s\n" [AStr (acpi_format_exception (fst re))] ;;
        err_enable_gpe bd p r
      else
      (* HACK: gmux_sdata = gmux_data *)
      rv <- kcall "vga_switcheroo_register_handler" [AStr "gmux_handler"] ;;
      if negb (fst rv =? 0) then err_switcheroo bd p r
      else
      gmux_enable_interrupts ;;
      ret 0
  end.

End Driver.
End Part000.

(** ** Reading a trace *)

(** The register writes of a trace, oldest first, as (port, value). *)
Definition writes (t : list event) : list (Z * Z) :=
  flat_map (fun e => match e with EvOutb v p => [(p, v)] | _ => [] end) t.

Definition is_log (fmt : string) (e : event) : bool :=
  match e with EvPrintk _ f _ => String.eqb f fmt | _ => false end.

Definition logged (fmt : string) (t : list event) : bool := existsb (is_log fmt) t.

Definition is_call (fn : string) (e : event) : bool :=
  match e with EvCall f _ _ _ => String.eqb f fn | _ => false end.

Definition called (fn : string) (t : list event) : bool := existsb (is_call fn) t.

(** The two events [gmux_set_discrete_state] ends with. *)
Definition wait_call {abi : kernel_abi} (w : Z) (out : list arg) : event :=
  EvCall "wait_for_completion_interruptible_timeout" [AInt (msecs_to_jiffies 200)] w out.

Definition timeout_log : event := EvPrintk KERN_INFO "completion timeout\n" [].

(** The events of one firmware call with integer argument [arg]: the method
    is looked up by its fixed path; when the lookup fails that is logged and
    the method is not evaluated; otherwise the method is evaluated once on
    the handle found, with [arg] as its one argument (a 64-bit ACPI
    integer), and either the failure is logged or the result buffer is
    freed. *)
Definition firmware_call {abi : kernel_abi} (arg : Z) (fw : list event) : Prop :=
  exists st out,
    let lookup :=
      EvCall "acpi_get_handle" [AInt 0; AStr "\_SB_.PCI0.P0P2.GFX0.PWRD"] st out in
    if ACPI_FAILURE st then
      fw = [lookup;
            EvPrintk KERN_ERR "Cannot get PWRD handle: %s\n"
                     [AStr (acpi_format_exception st)]]
    else
      exists st2 out2,
        let evaluate :=
          EvCall "acpi_evaluate_object" [AInt (out_int 0 out); AInt 0; AInt (u64 arg)]
                 st2 out2 in
        if ACPI_FAILURE st2 then
          fw = [lookup; evaluate;
                EvPrintk KERN_ERR "PWRD call failed: %s\n"
                         [AStr (acpi_format_exception st2)]]
        else
          exists k kout,
            fw = [lookup; evaluate;
                  EvCall "kfree" [AInt (out_int 0 out2)] k kout;
                  EvPrintk KERN_INFO "PWRD call successful\n" []].

(** ** A register file that reflects writes

    Byte ports hold what was last written to them ([init] before any write);
    a 32-bit read assembles four consecutive byte ports, low byte first. *)

Definition reg_byte (init : Z -> Z) (hist : list event) (port : Z) : Z :=
  fold_left (fun acc e => match e with
                          | EvOutb v p => if p =? port then v else acc
                          | _ => acc
                          end) hist (u8 (init port)).

Definition register_file (init : Z -> Z)
    (calls : list event -> string -> list arg -> Z * list arg) : platform := {|
  env_inb := reg_byte init;
  env_inl := fun hist port =>
    reg_byte init hist port
    + Z.shiftl (reg_byte init hist (port + 1)) 8
    + Z.shiftl (reg_byte init hist (port + 2)) 16
    + Z.shiftl (reg_byte init hist (port + 3)) 24;
  env_call := calls
|}.

(** A platform that answers every read and every call with the same value. *)
Definition constant_platform (v : Z) : platform := {|
  env_inb := fun _ _ => v;
  env_inl := fun _ _ => v;
  env_call := fun _ _ _ => (v, [])
|}.

Definition boot (w : platform) (base : Z) : machine := {|
  gmux_data := {| iostart := base; iolen := 0; dhandle := 0;
                  resume_client_id := 0; bdev := 0 |};
  world := w;
  trace := []
|}.

(** ** Sample inputs *)

Definition apple_pnp : pnp_dev := {|
  pnp_io_resource := Some {| res_start := 0x700; res_end := 0x7ff |};
  pnp_acpi_handle := 1;
  pnp_dev_name := "00:0a"
|}.

(** A platform on which the power change completes in time: the bounded wait
    returns the jiffies left (150); every other call and every read answers
    0. On [constant_platform 0] the same wait returns 0, the timeout. *)
Definition completing_platform : platform := {|
  env_inb := fun _ _ => 0;
  env_inl := fun _ _ => 0;
  env_call := fun _ fn _ =>
    if String.eqb fn "wait_for_completion_interruptible_timeout"
    then (150, []) else (0, [])
|}.

Definition is_complete (e : event) : bool :=
  match e with EvComplete => true | _ => false end.

(** A computation is quiet about a diagnostic when it only appends events
    and none of them is that diagnostic. *)
Definition quiet (fmt : string) {A} (c : M A) : Prop :=
  forall m, exists evs, trace (snd (c m)) = trace m ++ evs /\ logged fmt evs = false.

(** ** The suspend rule as the specification words it

    "If the register equals the Discrete-routing code, the resume target is
    Discrete, else Integrated", for a given Discrete-routing code. *)
Definition spec_resume_target {abi : kernel_abi} (discrete_code v : Z) : Z :=
  if v =? discrete_code then VGA_SWITCHEROO_DIS else VGA_SWITCHEROO_IGD.

(** ** What a computation appended *)

(** The events a computation appended: what the trace holds beyond [m]'s. *)
Definition emitted (m m' : machine) : list event :=
  skipn (List.length (trace m)) (trace m').

(** Weakest-precondition style judgement: started with driver data [d], the
    computation only appends events, leaves the platform alone, and its
    result, final driver data and appended events satisfy [Q]. *)
Definition wp {A} (c : M A) (d : apple_gmux_data)
    (Q : A -> apple_gmux_data -> list event -> Prop) : Prop :=
  forall m, gmux_data m = d ->
    exists d' evs,
      snd (c m) = set_gmux_data d' (add_events evs m) /\ Q (fst (c m)) d' evs.

(** ** Resources in a trace *)

Definition releases (t : list event) : list (Z * Z) :=
  flat_map (fun e => match e with
                     | EvCall fn [AInt s; AInt l] _ _ =>
                         if String.eqb fn "release_region" then [(s, l)] else []
                     | _ => []
                     end) t.

Definition grants (t : list event) : list (Z * Z) :=
  flat_map (fun e => match e with
                     | EvCall fn [AInt s; AInt l; _] r _ =>
                         if String.eqb fn "request_region" && negb (r =? 0)
                         then [(s, l)] else []
                     | _ => []
                     end) t.

Definition registered (t : list event) : list Z :=
  flat_map (fun e => match e with
                     | EvCall fn _ r _ =>
                         if String.eqb fn "backlight_device_register" && negb (IS_ERR r)
                         then [r] else []
                     | _ => []
                     end) t.

Definition unregistered (t : list event) : list Z :=
  flat_map (fun e => match e with
                     | EvCall fn [AInt b] _ _ =>
                         if String.eqb fn "backlight_device_unregister" then [b] else []
                     | _ => []
                     end) t.

Definition installed (t : list event) : list Z :=
  flat_map (fun e => match e with
                     | EvCall fn (AInt h :: _) st _ =>
                         if String.eqb fn "acpi_install_notify_handler"
                            && negb (ACPI_FAILURE st)
                         then [h] else []
                     | _ => []
                     end) t.

Definition removed (t : list event) : list Z :=
  flat_map (fun e => match e with
                     | EvCall fn (AInt h :: _) _ _ =>
                         if String.eqb fn "acpi_remove_notify_handler" then [h] else []
                     | _ => []
                     end) t.

(** The port accesses of a trace as (port, width in bytes). *)
Definition accesses (t : list event) : list (Z * Z) :=
  flat_map (fun e => match e with
                     | EvInb p _ => [(p, 1)]
                     | EvInl p _ => [(p, 4)]
                     | EvOutb _ p => [(p, 1)]
                     | _ => []
                     end) t.

(** The access [a] lies inside the region [g] = (start, length). *)
Definition in_window (g a : Z * Z) : Prop :=
  fst g <= fst a /\ fst a + snd a <= fst g + snd g.

(** The maximum brightness handed to [backlight_device_register]. *)
Definition register_max (t : list event) : list Z :=
  flat_map (fun e => match e with
                     | EvCall fn [_; _; _; AInt mb] _ _ =>
                         if String.eqb fn "backlight_device_register" then [mb] else []
                     | _ => []
                     end) t.

(** The values read by [inl] at one port. *)
Definition inl_at (port : Z) (t : list event) : list Z :=
  flat_map (fun e => match e with
                     | EvInl p v => if p =? port then [v] else []
                     | _ => []
                     end) t.

(** The writes of a trace to the four brightness ports of a window that
    starts at [start]. *)
Definition bl_writes (start : Z) (t : list event) : list (Z * Z) :=
  filter (fun pv => (start + 0x74 <=? fst pv) && (fst pv <=? start + 0x77)) (writes t).

(** The four byte writes that commit the low 24 bits of [v]. *)
Definition brightness_commit (start v : Z) : list (Z * Z) :=
  [(start + 0x74, Z.land v 0xFF); (start + 0x75, Z.land (Z.shiftr v 8) 0xFF);
   (start + 0x76, Z.land (Z.shiftr v 16) 0xFF); (start + 0x77, 0)].

(** What one run of [gmux_probe] did, by its result [r], the driver data
    [d'] it left and the events [evs] it appended. *)
Definition probe_summary {abi : kernel_abi} (pnp : pnp_dev) (r : Z) (d' : apple_gmux_data)
    (evs : list event) : Prop :=
  (r = 0 ->
     (exists pre, evs = pre ++ [EvInitCompletion; EvOutb 255 (iostart d' + 0x14)])
     /\ grants evs = [(iostart d', iolen d')]
     /\ registered evs = [bdev d']
     /\ installed evs = [dhandle d']
     /\ dhandle d' = pnp_acpi_handle pnp
     /\ GMUX_MIN_IO_LEN <= iolen d'
     /\ releases evs = [] /\ unregistered evs = [] /\ removed evs = [])
  /\ (r <> 0 ->
      releases evs = grants evs
      /\ removed evs = installed evs
      /\ unregistered evs = if pnp_acpi_handle pnp =? 0 then [] else registered evs)
  /\ Forall (fun a => Exists (fun g => in_window g a) (grants evs)) (accesses evs)
  /\ (grants evs = [] -> r = - ENXIO /\ register_max evs = [])
  /\ (forall g, In g (grants evs) ->
      register_max evs =
      map (fun v => Z.min (to_int v) GMUX_MAX_BRIGHTNESS) (inl_at (fst g + 0x70) evs)
      /\ bl_writes (fst g) evs =
         flat_map (brightness_commit (fst g)) (inl_at (fst g + 0x74) evs)).

(** ** Resources of the earlier probe *)

Definition allocated (t : list event) : list Z :=
  flat_map (fun e => match e with
                     | EvCall fn _ p _ =>
                         if String.eqb fn "kzalloc" && negb (p =? 0) then [p] else []
                     | _ => []
                     end) t.

(** What was handed to [kfree], call by call. *)
Definition freed (t : list event) : list arg :=
  flat_map (fun e => match e with
                     | EvCall fn [a] _ _ =>
                         if String.eqb fn "kfree" then [a] else []
                     | _ => []
                     end) t.

(** The name buffers [acpi_get_name] handed out (a buffer is identified by
    the name it holds). *)
Definition name_buffers (t : list event) : list arg :=
  flat_map (fun e => match e with
                     | EvCall fn _ _ out =>
                         if String.eqb fn "acpi_get_name" then [AStr (out_str out)]
                         else []
                     | _ => []
                     end) t.

Definition gpe_installed (t : list event) : list Z :=
  flat_map (fun e => match e with
                     | EvCall fn (_ :: AInt g :: _) st _ =>
                         if String.eqb fn "acpi_install_gpe_handler"
                            && negb (ACPI_FAILURE st)
                         then [g] else []
                     | _ => []
                     end) t.

Definition gpe_enabled (t : list event) : list Z :=
  flat_map (fun e => match e with
                     | EvCall fn (_ :: AInt g :: _) st _ =>
                         if String.eqb fn "acpi_enable_gpe" && negb (ACPI_FAILURE st)
                         then [g] else []
                     | _ => []
                     end) t.

Definition gpe_removed (t : list event) : list Z :=
  flat_map (fun e => match e with
                     | EvCall fn (_ :: AInt g :: _) _ _ =>
                         if String.eqb fn "acpi_remove_gpe_handler" then [g] else []
                     | _ => []
                     end) t.

(** What one run of the earlier [gmux_probe] did. *)
Definition part000_probe_summary {abi : kernel_abi} (r : Z) (d' : apple_gmux_data)
    (evs : list event) : Prop :=
  (r = 0 ->
     (exists pre, evs = pre ++ [EvOutb 255 (iostart d' + 0x14)])
     /\ grants evs = [(iostart d', iolen d')]
     /\ registered evs = [bdev d']
     /\ gpe_installed evs = [0x16] /\ gpe_enabled evs = [0x16]
     /\ GMUX_MIN_IO_LEN <= iolen d'
     /\ (exists p, allocated evs = [p])
     /\ freed evs = name_buffers evs
     /\ List.length (name_buffers evs) = 1%nat
     /\ releases evs = [] /\ unregistered evs = []
     /\ gpe_removed evs = [])
  /\ (r <> 0 ->
      releases evs = grants evs
      /\ freed evs = name_buffers evs ++ map AInt (allocated evs)
      /\ unregistered evs = match gpe_installed evs with
                            | [] => []
                            | _ => registered evs
                            end
      /\ gpe_removed evs = match gpe_enabled evs with
                           | [] => []
                           | _ => gpe_installed evs
                           end)
  /\ Forall (fun a => Exists (fun g => in_window g a) (grants evs)) (accesses evs)
  /\ (allocated evs = [] -> r = - ENOMEM /\ grants evs = [] /\ List.length evs = 1%nat)
  /\ called "acpi_disable_gpe" evs = false.

(** ** Sample platforms for the probe *)

(** A platform on which the probe succeeds: the region is granted, the
    version reads 1.1.1, the backlight registers at 0x1000, the allocator
    answers 0x2000, every ACPI and switcheroo call answers 0; 32-bit reads
    answer 0x12345. *)
Definition working_platform : platform := {|
  env_inb := fun _ _ => 1;
  env_inl := fun _ _ => 0x12345;
  env_call := fun _ fn _ =>
    if String.eqb fn "request_region" then (1, [])
    else if String.eqb fn "backlight_device_register" then (0x1000, [])
    else if String.eqb fn "kzalloc" then (0x2000, [])
    else (0, [])
|}.

(** [working_platform], except that [vga_switcheroo_register_handler]
    answers 1: the probe fails after the notify handler was installed. *)
Definition switcheroo_refusing_platform : platform := {|
  env_inb := env_inb working_platform;
  env_inl := env_inl working_platform;
  env_call := fun hist fn args =>
    if String.eqb fn "vga_switcheroo_register_handler" then (1, [])
    else env_call working_platform hist fn args
|}.

(** [working_platform], except that 32-bit reads answer 0x1ffffff, more
    than the 24-bit brightness mask. *)
Definition bright_platform : platform := {|
  env_inb := env_inb working_platform;
  env_inl := fun _ _ => 0x1ffffff;
  env_call := env_call working_platform
|}.

Definition apple_pnp_no_acpi : pnp_dev := {|
  pnp_io_resource := Some {| res_start := 0x700; res_end := 0x7ff |};
  pnp_acpi_handle := 0;
  pnp_dev_name := "00:0a"
|}.

(** * Properties *)

Section Properties.
Context {abi : kernel_abi}.

Lemma add_events_app (e1 e2 : list event) (m : machine) :
  add_events e2 (add_events e1 m) = add_events (e1 ++ e2) m.
Proof. unfold add_events; simpl; now rewrite app_assoc. Qed.

Lemma u8_range (z : Z) : 0 <= u8 z < 256.
Proof. unfold u8; apply Z.mod_pos_bound; lia. Qed.

Lemma u8_small (z : Z) : 0 <= z < 256 -> u8 z = z.
Proof. intros; unfold u8; now apply Z.mod_small. Qed.

Lemma u8_idem (z : Z) : u8 (u8 z) = u8 z.
Proof. apply u8_small, u8_range. Qed.

Lemma gmux_data_add_events (e : list event) (m : machine) :
  gmux_data (add_events e m) = gmux_data m.
Proof. reflexivity. Qed.

Lemma world_add_events (e : list event) (m : machine) :
  world (add_events e m) = world m.
Proof. reflexivity. Qed.

Lemma trace_add_events (e : list event) (m : machine) :
  trace (add_events e m) = trace m ++ e.
Proof. reflexivity. Qed.

Lemma bind_run {A B} (c : M A) (k : A -> M B) (m : machine) :
  bind c k m = k (fst (c m)) (snd (c m)).
Proof. unfold bind; now destruct (c m). Qed.

Lemma ret_run {A} (a : A) (m : machine) : ret a m = (a, m).
Proof. reflexivity. Qed.

Lemma emit_run (e : event) (m : machine) : emit e m = (tt, add_events [e] m).
Proof. reflexivity. Qed.

Lemma gmux_write8_run (port val : Z) (m : machine) :
  gmux_write8 port val m = (tt, add_events [EvOutb (u8 val) (iostart (gmux_data m) + port)] m).
Proof. reflexivity. Qed.

Lemma gmux_read8_run (port : Z) (m : machine) :
  gmux_read8 port m =
  (u8 (env_inb (world m) (trace m) (iostart (gmux_data m) + port)),
   add_events [EvInb (iostart (gmux_data m) + port)
                     (u8 (env_inb (world m) (trace m) (iostart (gmux_data m) + port)))] m).
Proof. reflexivity. Qed.

Lemma gmux_read32_run (port : Z) (m : machine) :
  gmux_read32 port m =
  (u32 (env_inl (world m) (trace m) (iostart (gmux_data m) + port)),
   add_events [EvInl (iostart (gmux_data m) + port)
                     (u32 (env_inl (world m) (trace m) (iostart (gmux_data m) + port)))] m).
Proof. reflexivity. Qed.

Lemma kcall_run (fn : string) (args : list arg) (m : machine) :
  kcall fn args m =
  (env_call (world m) (trace m) fn args,
   add_events [EvCall fn args (fst (env_call (world m) (trace m) fn args))
                      (snd (env_call (world m) (trace m) fn args))] m).
Proof. reflexivity. Qed.

Lemma printk_run lvl fmt args (m : machine) :
  printk lvl fmt args m = (tt, add_events [EvPrintk lvl fmt args] m).
Proof. reflexivity. Qed.

Lemma get_data_run (m : machine) : get_data m = (gmux_data m, m).
Proof. reflexivity. Qed.

Lemma put_data_run (d : apple_gmux_data) (m : machine) :
  put_data d m = (tt, set_gmux_data d m).
Proof. reflexivity. Qed.

Lemma gmux_data_set (d : apple_gmux_data) (m : machine) :
  gmux_data (set_gmux_data d m) = d.
Proof. reflexivity. Qed.

Lemma world_set (d : apple_gmux_data) (m : machine) :
  world (set_gmux_data d m) = world m.
Proof. reflexivity. Qed.

Lemma trace_set (d : apple_gmux_data) (m : machine) :
  trace (set_gmux_data d m) = trace m.
Proof. reflexivity. Qed.

Lemma add_events_set (e : list event) (d : apple_gmux_data) (m : machine) :
  add_events e (set_gmux_data d m) = set_gmux_data d (add_events e m).
Proof. reflexivity. Qed.

Lemma set_set (d1 d2 : apple_gmux_data) (m : machine) :
  set_gmux_data d2 (set_gmux_data d1 m) = set_gmux_data d2 m.
Proof. reflexivity. Qed.

End Properties.

Create Rewrite HintDb gmux.
#[export] Hint Rewrite @bind_run @ret_run emit_run gmux_write8_run gmux_read8_run
  gmux_read32_run kcall_run printk_run
  add_events_app gmux_data_add_events world_add_events trace_add_events : gmux.
#[export] Hint Rewrite get_data_run put_data_run gmux_data_set world_set trace_set
  add_events_set set_set : gmux.
#[export] Hint Rewrite <- @app_assoc : gmux.

(** The same rules without the one that unfolds a bind, for stepping through
    long functions one statement at a time. *)
Create Rewrite HintDb gmux_prim.
#[export] Hint Rewrite @ret_run emit_run gmux_write8_run gmux_read8_run
  gmux_read32_run kcall_run printk_run
  add_events_app gmux_data_add_events world_add_events trace_add_events : gmux_prim.
#[export] Hint Rewrite get_data_run put_data_run gmux_data_set world_set trace_set
  add_events_set set_set : gmux_prim.
#[export] Hint Rewrite <- @app_assoc : gmux_prim.

(** Reduce [u8] of a literal. *)
Ltac u8_consts :=
  repeat match goal with
         | |- context [u8 (Zpos ?p)] =>
             let v := eval vm_compute in (u8 (Zpos p)) in change (u8 (Zpos p)) with v
         | |- context [u8 0] => change (u8 0) with 0
         end.

(** Strings are large terms; name them while rewriting. *)
Ltac hide_strings :=
  repeat match goal with
         | |- context [String ?a ?s] =>
             let x := fresh "str" in set (x := String a s) in *
         end.

(** Evaluate a straight-line piece of driver code on a symbolic machine. *)
Ltac run :=
  unfold pr_info, pr_err, init_completion, complete;
  hide_strings;
  repeat (autorewrite with gmux; cbn [fst snd app negb]);
  u8_consts.

(** One statement of a sequence. *)
Ltac step :=
  rewrite bind_run; cbn beta;
  unfold pr_info, pr_err, init_completion, complete;
  hide_strings;
  autorewrite with gmux_prim; cbn [fst snd app negb];
  cbn [iostart iolen dhandle resume_client_id bdev];
  u8_consts.

(** Name the platform's answers, so that later histories stay small. *)
Ltac name_answers :=
  repeat match goal with
         | |- context [env_call ?w ?h ?f ?a] =>
             let r := fresh "r" in generalize (env_call w h f a); intros r
         | |- context [env_inb ?w ?h ?p] =>
             let v := fresh "v" in generalize (env_inb w h p); intros v
         | |- context [env_inl ?w ?h ?p] =>
             let v := fresh "v" in generalize (env_inl w h p); intros v
         end.

(** Walk through every path of a function, splitting at each test. *)
Ltac walk :=
  repeat first
    [ match goal with
      | |- context [if ?b then _ else _] =>
          lazymatch b with
          | true => fail
          | false => fail
          | _ => destruct b; cbv beta iota
          end
      end
    | progress (step; name_answers) ];
  autorewrite with gmux_prim; cbn [fst snd app].

Section SwitchProperties.
Context {abi : kernel_abi}.

(** What [gmux_switchto] does for each of its two branches. *)
Lemma gmux_switchto_run (id : Z) (m : machine) :
  gmux_switchto id m =
  (0, add_events
        (if id =? VGA_SWITCHEROO_IGD
         then [EvOutb 1 (iostart (gmux_data m) + GMUX_PORT_SWITCH_DDC);
               EvOutb 2 (iostart (gmux_data m) + GMUX_PORT_SWITCH_DISPLAY);
               EvOutb 2 (iostart (gmux_data m) + GMUX_PORT_SWITCH_EXTERNAL)]
         else [EvOutb 2 (iostart (gmux_data m) + GMUX_PORT_SWITCH_DDC);
               EvOutb 3 (iostart (gmux_data m) + GMUX_PORT_SWITCH_DISPLAY);
               EvOutb 3 (iostart (gmux_data m) + GMUX_PORT_SWITCH_EXTERNAL)]) m).
Proof.
  unfold gmux_switchto.
  destruct (id =? VGA_SWITCHEROO_IGD); run; reflexivity.
Qed.

(** C6: [gmux_switchto] for the integrated client returns 0 and performs
    exactly the three writes DDC-switch (0x28) = 1, display-switch (0x10) = 2,
    external-switch (0x40) = 2, in that order; for the discrete client exactly
    DDC-switch = 2, display-switch = 3, external-switch = 3. Nothing else is
    emitted and the driver data is unchanged. *)
Theorem gmux_switchto_writes (m : machine) :
  VGA_SWITCHEROO_DIS <> VGA_SWITCHEROO_IGD ->
  let base := iostart (gmux_data m) in
  gmux_switchto VGA_SWITCHEROO_IGD m =
    (0, add_events [EvOutb 1 (base + 0x28); EvOutb 2 (base + 0x10);
                    EvOutb 2 (base + 0x40)] m)
  /\ gmux_switchto VGA_SWITCHEROO_DIS m =
    (0, add_events [EvOutb 2 (base + 0x28); EvOutb 3 (base + 0x10);
                    EvOutb 3 (base + 0x40)] m).
Proof.
  intros Hne base; rewrite !gmux_switchto_run; cbv zeta.
  rewrite Z.eqb_refl.
  apply Z.eqb_neq in Hne; rewrite Hne.
  split; reflexivity.
Qed.

End SwitchProperties.

Lemma gmux_switchto_writes_witness :
  gmux_switchto (abi := linux_abi) 0 (boot (constant_platform 0) 0x700) =
    (0, add_events [EvOutb 1 (0x700 + 0x28); EvOutb 2 (0x700 + 0x10);
                    EvOutb 2 (0x700 + 0x40)] (boot (constant_platform 0) 0x700))
  /\ gmux_switchto (abi := linux_abi) 1 (boot (constant_platform 0) 0x700) =
    (0, add_events [EvOutb 2 (0x700 + 0x28); EvOutb 3 (0x700 + 0x10);
                    EvOutb 3 (0x700 + 0x40)] (boot (constant_platform 0) 0x700)).
Proof.
  apply (gmux_switchto_writes (abi := linux_abi) (boot (constant_platform 0) 0x700)).
  simpl; lia.
Defined.

Section PowerProperties.
Context {abi : kernel_abi}.

Lemma writes_app (t1 t2 : list event) : writes (t1 ++ t2) = writes t1 ++ writes t2.
Proof. unfold writes; now rewrite flat_map_app. Qed.

Lemma logged_app (fmt : string) (t1 t2 : list event) :
  logged fmt (t1 ++ t2) = logged fmt t1 || logged fmt t2.
Proof. unfold logged; now rewrite existsb_app. Qed.

Lemma called_app (fn : string) (t1 t2 : list event) :
  called fn (t1 ++ t2) = called fn t1 || called fn t2.
Proof. unfold called; now rewrite existsb_app. Qed.

Lemma logged_cons (fmt : string) (e : event) (t : list event) :
  logged fmt (e :: t) = is_log fmt e || logged fmt t.
Proof. reflexivity. Qed.

Lemma called_cons (fn : string) (e : event) (t : list event) :
  called fn (e :: t) = is_call fn e || called fn t.
Proof. reflexivity. Qed.

(** The firmware call only appends events: a handle lookup first, no
    register write, no timeout diagnostic. *)
Lemma gmux_call_acpi_pwrd_run (arg : Z) (m : machine) :
  exists fw,
    snd (gmux_call_acpi_pwrd arg m) = add_events fw m
    /\ writes fw = []
    /\ called "acpi_get_handle" fw = true
    /\ called "wait_for_completion_interruptible_timeout" fw = false
    /\ logged "completion timeout\n" fw = false.
Proof.
  unfold gmux_call_acpi_pwrd. run.
  destruct (ACPI_FAILURE _).
  - run. eexists; split; [reflexivity|]. repeat split.
  - run. destruct (ACPI_FAILURE _); run; (eexists; split; [reflexivity|]); repeat split.
Qed.

(** The whole of [gmux_set_discrete_state], with the firmware call's events
    [fw] and the wait's answer [w] left to the platform. *)
Lemma gmux_set_discrete_state_run (state : Z) (m : machine) :
  exists fw w out,
    gmux_set_discrete_state state m =
      (0, add_events
            (EvInitCompletion ::
             (if state =? VGA_SWITCHEROO_ON
              then fw ++ [EvOutb 1 (iostart (gmux_data m) + GMUX_PORT_DISCRETE_POWER);
                          EvOutb 3 (iostart (gmux_data m) + GMUX_PORT_DISCRETE_POWER);
                          EvPrintk KERN_INFO "discrete card powered up\n" []]
              else [EvOutb 1 (iostart (gmux_data m) + GMUX_PORT_DISCRETE_POWER);
                    EvOutb 0 (iostart (gmux_data m) + GMUX_PORT_DISCRETE_POWER)]
                   ++ fw ++ [EvPrintk KERN_INFO "discrete card powered down\n" []])
             ++ wait_call w out :: (if w =? 0 then [] else [timeout_log])) m)
    /\ snd (gmux_call_acpi_pwrd (if state =? VGA_SWITCHEROO_ON then 0 else 1)
              (add_events
                 (EvInitCompletion ::
                  (if state =? VGA_SWITCHEROO_ON then []
                   else [EvOutb 1 (iostart (gmux_data m) + GMUX_PORT_DISCRETE_POWER);
                         EvOutb 0 (iostart (gmux_data m) + GMUX_PORT_DISCRETE_POWER)])) m))
       = add_events
           ((EvInitCompletion ::
             (if state =? VGA_SWITCHEROO_ON then []
              else [EvOutb 1 (iostart (gmux_data m) + GMUX_PORT_DISCRETE_POWER);
                    EvOutb 0 (iostart (gmux_data m) + GMUX_PORT_DISCRETE_POWER)])) ++ fw) m
    /\ writes fw = []
    /\ called "acpi_get_handle" fw = true
    /\ called "wait_for_completion_interruptible_timeout" fw = false
    /\ logged "completion timeout\n" fw = false.
Proof.
  unfold gmux_set_discrete_state, wait_for_completion_interruptible_timeout.
  destruct (state =? VGA_SWITCHEROO_ON).
  - destruct (gmux_call_acpi_pwrd_run 0 (add_events [EvInitCompletion] m))
      as (fw & Hfw & Hw & Hc & Hcw & Hl).
    run. rewrite Hfw. run.
    match goal with |- context [EvCall _ _ (fst ?r) (snd ?r)] =>
      exists fw, (fst r), (snd r) end.
    split; [|repeat split; assumption].
    destruct (fst _ =? 0); run; unfold wait_call, timeout_log;
      rewrite <- ?app_assoc; reflexivity.
  - run.
    match goal with |- context [gmux_call_acpi_pwrd 1 ?m1] =>
      destruct (gmux_call_acpi_pwrd_run 1 m1) as (fw & Hfw & Hw & Hc & Hcw & Hl) end.
    rewrite Hfw. run.
    match goal with |- context [EvCall _ _ (fst ?r) (snd ?r)] =>
      exists fw, (fst r), (snd r) end.
    split; [|repeat split; assumption].
    destruct (fst _ =? 0); run; unfold wait_call, timeout_log;
      rewrite <- ?app_assoc; reflexivity.
Qed.

Lemma gmux_set_power_state_not_igd (id state : Z) (m : machine) :
  id <> VGA_SWITCHEROO_IGD ->
  gmux_set_power_state id state m = gmux_set_discrete_state state m.
Proof.
  intros H; unfold gmux_set_power_state.
  apply Z.eqb_neq in H; now rewrite H.
Qed.

(** The timeout diagnostic: [gmux_set_discrete_state] always returns 0, and
    after the 200 ms bounded wait it logs "completion timeout" exactly when
    the wait returned non-zero, that is when the wait did not time out (the
    completion arrived, or a signal interrupted the wait). When the wait
    returns 0, the timeout, nothing is logged. *)
Lemma gmux_set_discrete_state_timeout_log (state : Z) (m : machine) :
  exists pre w out,
    gmux_set_discrete_state state m =
      (0, add_events (pre ++ wait_call w out :: (if w =? 0 then [] else [timeout_log])) m)
    /\ logged "completion timeout\n" pre = false
    /\ called "wait_for_completion_interruptible_timeout" pre = false.
Proof.
  destruct (gmux_set_discrete_state_run state m) as (fw & w & out & H & _ & _ & _ & Hcw & Hl).
  destruct (state =? VGA_SWITCHEROO_ON);
    (eexists; exists w, out; split; [rewrite H, app_comm_cons; reflexivity|]);
    rewrite logged_cons, called_cons, !logged_app, !called_app, Hl, Hcw;
    split; reflexivity.
Qed.

(** One firmware call appends exactly the events [firmware_call] describes. *)
Lemma gmux_call_acpi_pwrd_shape (arg : Z) (m : machine) :
  exists fw,
    snd (gmux_call_acpi_pwrd arg m) = add_events fw m /\ firmware_call arg fw.
Proof.
  unfold gmux_call_acpi_pwrd, firmware_call. cbv zeta. run. name_answers.
  destruct (ACPI_FAILURE (fst r)) eqn:E.
  - run. eexists; split; [reflexivity|].
    exists (fst r), (snd r). rewrite E. reflexivity.
  - run. name_answers.
    destruct (ACPI_FAILURE (fst r0)) eqn:E2; run; name_answers;
      (eexists; split; [reflexivity|]);
      exists (fst r), (snd r); rewrite E;
      exists (fst r0), (snd r0); rewrite E2;
      [reflexivity | do 2 eexists; reflexivity].
Qed.

(** C3, amended: in apple_gmux.c, for a discrete client, power-on arms the
    completion, makes the firmware call with argument 0 (the method is
    looked up and, when the lookup succeeds, evaluated once with that
    argument), then writes discrete-power (0x50) = 1 and = 3; power-off arms
    the completion, writes discrete-power = 1 and = 0, then makes the
    firmware call with argument 1. Whatever the lookup and the evaluation
    answer, these are the only register writes and the result is 0. In the
    earlier revision there is no firmware call at all: power-on writes 1
    then 3, power-off writes only 0, and the result is 0 whenever the call
    returns. *)
Theorem gmux_set_power_state_discrete_sequence (id : Z) (m : machine) :
  id <> VGA_SWITCHEROO_IGD ->
  let P := iostart (gmux_data m) + 0x50 in
  (exists fw w out,
      gmux_set_power_state id VGA_SWITCHEROO_ON m =
        (0, add_events
              (EvInitCompletion :: fw
               ++ [EvOutb 1 P; EvOutb 3 P;
                   EvPrintk KERN_INFO "discrete card powered up\n" []]
               ++ wait_call w out :: (if w =? 0 then [] else [timeout_log])) m)
      /\ firmware_call 0 fw
      /\ writes (EvInitCompletion :: fw
                 ++ [EvOutb 1 P; EvOutb 3 P;
                     EvPrintk KERN_INFO "discrete card powered up\n" []]
                 ++ wait_call w out :: (if w =? 0 then [] else [timeout_log]))
         = [(P, 1); (P, 3)])
  /\ (forall state, state <> VGA_SWITCHEROO_ON ->
      exists fw w out,
        gmux_set_power_state id state m =
          (0, add_events
                (EvInitCompletion :: [EvOutb 1 P; EvOutb 0 P] ++ fw
                 ++ EvPrintk KERN_INFO "discrete card powered down\n" []
                 :: wait_call w out :: (if w =? 0 then [] else [timeout_log])) m)
        /\ firmware_call 1 fw
        /\ writes (EvInitCompletion :: [EvOutb 1 P; EvOutb 0 P] ++ fw
                   ++ EvPrintk KERN_INFO "discrete card powered down\n" []
                   :: wait_call w out :: (if w =? 0 then [] else [timeout_log]))
           = [(P, 1); (P, 0)])
  /\ (forall state,
      exists evs,
        snd (Part000.gmux_set_power_state id state m) = add_events evs m
        /\ (fst (Part000.gmux_set_power_state id state m) = Some 0
            \/ fst (Part000.gmux_set_power_state id state m) = None)
        /\ writes evs = (if state =? VGA_SWITCHEROO_ON then [(P, 1); (P, 3)]
                         else [(P, 0)])
        /\ called "acpi_get_handle" evs = false
        /\ called "acpi_evaluate_object" evs = false).
Proof.
  intros Hid P; subst P.
  assert (Hfw : forall arg pre fw,
             snd (gmux_call_acpi_pwrd arg (add_events pre m)) = add_events (pre ++ fw) m ->
             firmware_call arg fw).
  { intros arg pre fw H.
    destruct (gmux_call_acpi_pwrd_shape arg (add_events pre m)) as (fw' & H' & Hs).
    rewrite H' in H. apply (f_equal trace) in H. cbn in H.
    rewrite <- app_assoc in H. apply app_inv_head in H. apply app_inv_head in H.
    now subst fw'. }
  split; [|split]; [|intros state Hst|intros state].
  - rewrite gmux_set_power_state_not_igd by assumption.
    destruct (gmux_set_discrete_state_run VGA_SWITCHEROO_ON m)
      as (fw & w & out & H & Hrun & Hw & _).
    rewrite Z.eqb_refl in H, Hrun.
    exists fw, w, out. split; [|split].
    + rewrite H. unfold GMUX_PORT_DISCRETE_POWER. rewrite <- !app_assoc. reflexivity.
    + apply (Hfw 0 [EvInitCompletion] fw). exact Hrun.
    + change (EvInitCompletion :: fw ++ ?l) with ([EvInitCompletion] ++ fw ++ l).
      rewrite !writes_app, Hw. destruct (w =? 0); reflexivity.
  - rewrite gmux_set_power_state_not_igd by assumption.
    destruct (gmux_set_discrete_state_run state m)
      as (fw & w & out & H & Hrun & Hw & _).
    apply Z.eqb_neq in Hst. rewrite Hst in H, Hrun.
    exists fw, w, out. split; [|split].
    + rewrite H. unfold GMUX_PORT_DISCRETE_POWER. rewrite <- !app_assoc. reflexivity.
    + eapply (Hfw 1). exact Hrun.
    + change (EvInitCompletion :: [?a; ?b] ++ fw ++ ?l)
        with ([EvInitCompletion; a; b] ++ fw ++ l).
      rewrite !writes_app, Hw. destruct (w =? 0); reflexivity.
  - unfold Part000.gmux_set_power_state.
    apply Z.eqb_neq in Hid. rewrite Hid.
    unfold Part000.gmux_set_discrete_state, Part000.wait_for_completion,
      GMUX_PORT_DISCRETE_POWER.
    destruct (state =? VGA_SWITCHEROO_ON); run;
      match goal with |- context [fst ?r =? 0] => destruct (fst r =? 0) end;
      run; (eexists; split; [reflexivity|]); repeat split; auto.
Qed.

(** C8: for the integrated client [gmux_set_power_state] returns 0 and leaves
    the machine as it was: no register write, no re-arming of the completion,
    no wait, for every requested state (in both revisions). *)
Theorem gmux_set_power_state_integrated (state : Z) (m : machine) :
  gmux_set_power_state VGA_SWITCHEROO_IGD state m = (0, m)
  /\ Part000.gmux_set_power_state VGA_SWITCHEROO_IGD state m = (Some 0, m).
Proof.
  unfold gmux_set_power_state, Part000.gmux_set_power_state.
  rewrite Z.eqb_refl; split; reflexivity.
Qed.

(** C9: [gmux_get_client_id] classifies every Intel device as integrated,
    the NVIDIA device 0x0863 as integrated, and every other (vendor, device)
    pair as discrete. *)
Theorem gmux_get_client_id_classify :
  (forall dev, gmux_get_client_id {| vendor := PCI_VENDOR_ID_INTEL; device := dev |}
               = VGA_SWITCHEROO_IGD)
  /\ gmux_get_client_id {| vendor := PCI_VENDOR_ID_NVIDIA; device := 0x0863 |}
     = VGA_SWITCHEROO_IGD
  /\ (forall pdev,
        vendor pdev <> PCI_VENDOR_ID_INTEL ->
        ~ (vendor pdev = PCI_VENDOR_ID_NVIDIA /\ device pdev = 0x0863) ->
        gmux_get_client_id pdev = VGA_SWITCHEROO_DIS).
Proof.
  unfold gmux_get_client_id; cbn [vendor device]; repeat split.
  - intros dev; now rewrite Z.eqb_refl.
  - rewrite Z.eqb_refl; cbn. now destruct (_ =? _).
  - intros pdev Hi Hn. apply Z.eqb_neq in Hi; rewrite Hi.
    destruct (Z.eqb_spec (vendor pdev) PCI_VENDOR_ID_NVIDIA);
      destruct (Z.eqb_spec (device pdev) 0x0863); cbn; try reflexivity.
    exfalso; apply Hn; now split.
Qed.

Lemma gmux_update_status_run (bd : backlight_device) (m : machine) :
  gmux_update_status bd m =
  (0, add_events
        [EvOutb (u8 (u32 (brightness (props bd))))
                (iostart (gmux_data m) + GMUX_PORT_BRIGHTNESS);
         EvOutb (u8 (Z.shiftr (u32 (brightness (props bd))) 8))
                (iostart (gmux_data m) + (GMUX_PORT_BRIGHTNESS + 1));
         EvOutb (u8 (Z.shiftr (u32 (brightness (props bd))) 16))
                (iostart (gmux_data m) + (GMUX_PORT_BRIGHTNESS + 2));
         EvOutb 0 (iostart (gmux_data m) + (GMUX_PORT_BRIGHTNESS + 3))] m).
Proof. unfold gmux_update_status. run. reflexivity. Qed.

Lemma gmux_switchddc_run (id : Z) (m : machine) :
  gmux_switchddc id m =
  (0, add_events
        (if id =? VGA_SWITCHEROO_IGD
         then [EvPrintk KERN_INFO "switch ddc to IGD\n" [];
               EvOutb 1 (iostart (gmux_data m) + GMUX_PORT_SWITCH_DDC)]
         else [EvPrintk KERN_INFO "switch ddc to DIS\n" [];
               EvOutb 2 (iostart (gmux_data m) + GMUX_PORT_SWITCH_DDC)]) m).
Proof.
  unfold gmux_switchddc.
  destruct (id =? VGA_SWITCHEROO_IGD); run; reflexivity.
Qed.

(** C10: the role is only ever compared with the integrated enumerator. Every
    other value, in or out of the enumeration, gets the discrete write
    sequence from [gmux_switchto] and [gmux_switchddc] and the discrete
    power sequence from [gmux_set_power_state]; and [gmux_switchto],
    [gmux_switchddc], [gmux_update_status] and [gmux_set_power_state] return
    0 on every input. *)
Theorem role_other_than_igd_is_discrete
    (id state : Z) (bd : backlight_device) (m : machine) :
  (fst (gmux_switchto id m) = 0
   /\ fst (gmux_switchddc id m) = 0
   /\ fst (gmux_update_status bd m) = 0
   /\ fst (gmux_set_power_state id state m) = 0)
  /\ (id <> VGA_SWITCHEROO_IGD ->
      gmux_switchto id m =
        (0, add_events [EvOutb 2 (iostart (gmux_data m) + 0x28);
                        EvOutb 3 (iostart (gmux_data m) + 0x10);
                        EvOutb 3 (iostart (gmux_data m) + 0x40)] m)
      /\ gmux_switchddc id m =
        (0, add_events [EvPrintk KERN_INFO "switch ddc to DIS\n" [];
                        EvOutb 2 (iostart (gmux_data m) + 0x28)] m)
      /\ gmux_set_power_state id state m = gmux_set_discrete_state state m).
Proof.
  split.
  - rewrite gmux_switchto_run, gmux_switchddc_run, gmux_update_status_run.
    repeat split.
    unfold gmux_set_power_state. destruct (id =? VGA_SWITCHEROO_IGD); [reflexivity|].
    destruct (gmux_set_discrete_state_run state m) as (fw & w & out & H & _).
    now rewrite H.
  - intros Hid. rewrite gmux_switchto_run, gmux_switchddc_run.
    rewrite gmux_set_power_state_not_igd by assumption.
    apply Z.eqb_neq in Hid; rewrite Hid. repeat split.
Qed.

Lemma gmux_resume_run (m : machine) :
  gmux_resume m = (0, snd (gmux_switchto (resume_client_id (gmux_data m)) m)).
Proof. unfold gmux_resume. rewrite !bind_run. reflexivity. Qed.

(** C1 (as the code has it): [gmux_suspend] reads the display-switch register
    (0x10) once and records the integrated client when the value is 2, the
    value [gmux_switchto] writes there for the integrated client, and the
    discrete client for every other value; it returns 0 and writes nothing.
    [gmux_resume], on any machine, performs exactly [gmux_switchto] of the
    recorded client and returns 0; so a suspend followed by a resume switches
    to the client read back at suspend time. *)
Theorem gmux_suspend_resume (m : machine) :
  let port := iostart (gmux_data m) + 0x10 in
  let v := u8 (env_inb (world m) (trace m) port) in
  let target := if v =? 2 then VGA_SWITCHEROO_IGD else VGA_SWITCHEROO_DIS in
  let ms := set_gmux_data (set_resume_client_id target (gmux_data m))
                          (add_events [EvInb port v] m) in
  gmux_suspend m = (0, ms)
  /\ resume_client_id (gmux_data ms) = target
  /\ (forall m', gmux_resume m' =
                 (0, snd (gmux_switchto (resume_client_id (gmux_data m')) m')))
  /\ bind gmux_suspend (fun _ => gmux_resume) m = (0, snd (gmux_switchto target ms)).
Proof.
  intros port v target ms.
  assert (Hs : gmux_suspend m = (0, ms)) by reflexivity.
  split; [exact Hs|split; [reflexivity|split; [exact gmux_resume_run|]]].
  rewrite bind_run, Hs. apply gmux_resume_run.
Qed.

End PowerProperties.

(** C1 (as stated) fails. With 3 as the Discrete-routing code (what
    [gmux_switchto] writes to the display-switch register for the discrete
    client), a register that reads 0 makes the code record the discrete
    client where the stated rule gives the integrated one; with 2 as that
    code, a register that reads 2 makes the code record the integrated client
    where the stated rule gives the discrete one. *)
Lemma spec_resume_target_fails :
  (fst (gmux_read8 GMUX_PORT_SWITCH_DISPLAY (boot (constant_platform 0) 0x700)) = 0
   /\ resume_client_id
        (gmux_data (snd (gmux_suspend (abi := linux_abi) (boot (constant_platform 0) 0x700))))
      <> spec_resume_target (abi := linux_abi) 3 0)
  /\ (fst (gmux_read8 GMUX_PORT_SWITCH_DISPLAY (boot (constant_platform 2) 0x700)) = 2
      /\ resume_client_id
           (gmux_data (snd (gmux_suspend (abi := linux_abi) (boot (constant_platform 2) 0x700))))
         <> spec_resume_target (abi := linux_abi) 2 2).
Proof. split; (split; [reflexivity | discriminate]). Qed.

Section InterruptProperties.
Context {abi : kernel_abi}.

(** [status & GMUX_INTERRUPT_STATUS_POWER] is non-zero exactly when bit 2 of
    the status is set. *)
Lemma land_status_power (s : Z) :
  negb (Z.land s GMUX_INTERRUPT_STATUS_POWER =? 0) = Z.testbit s 2.
Proof.
  change GMUX_INTERRUPT_STATUS_POWER with (2 ^ 2).
  destruct (Z.testbit s 2) eqn:E.
  - apply negb_true_iff, Z.eqb_neq. intros H.
    assert (Hb : Z.testbit (Z.land s (2 ^ 2)) 2 = true).
    { rewrite Z.land_spec, E, Z.pow2_bits_true by lia. reflexivity. }
    rewrite H in Hb. rewrite Z.bits_0 in Hb. discriminate.
  - apply negb_false_iff, Z.eqb_eq. apply Z.bits_inj'. intros n Hn.
    rewrite Z.land_spec, Z.bits_0, Z.pow2_bits_eqb by lia.
    destruct (Z.eqb_spec 2 n) as [<-|]; [now rewrite E | apply andb_false_r].
Qed.

(** C4: one invocation of [gmux_notify_handler] reads interrupt-status (0x16),
    writes 0 to interrupt-enable (0x14), logs the status, reads the status
    again, writes that value back to the status register, reads it a third
    time (logging the mismatch diagnostic exactly when that read is
    non-zero), writes 0xff to interrupt-enable, and finally fulfils the
    completion exactly when bit 2 of the first status read is set, whatever
    the other bits are. *)
Theorem gmux_notify_handler_steps (m : machine) :
  let st := iostart (gmux_data m) + 0x16 in
  let en := iostart (gmux_data m) + 0x14 in
  let s0 := u8 (env_inb (world m) (trace m) st) in
  let pre := [EvInb st s0; EvOutb 0 en;
              EvPrintk KERN_INFO "gmux: gpe handler called: status %d\n" [AInt s0]] in
  let s1 := u8 (env_inb (world m) (trace m ++ pre) st) in
  let ack := [EvInb st s1; EvOutb s1 st] in
  let s2 := u8 (env_inb (world m) (trace m ++ pre ++ ack) st) in
  gmux_notify_handler m =
    (tt, add_events
           (pre ++ ack ++ [EvInb st s2]
            ++ (if s2 =? 0 then []
                else [EvPrintk KERN_INFO
                        "gmux: error: activate_status, old_status %d new_status %d\n"
                        [AInt s1; AInt s2]])
            ++ [EvOutb 0xff en]
            ++ (if Z.testbit s0 2 then [EvComplete] else [])) m).
Proof.
  intros st en s0 pre s1 ack s2; subst pre ack.
  pose proof (eq_refl s0) as E0; unfold s0 at 1 in E0; clearbody s0.
  assert (I1 : u8 s1 = s1) by apply u8_idem.
  pose proof (eq_refl s1) as E1; unfold s1 at 1 in E1; clearbody s1.
  pose proof (eq_refl s2) as E2; unfold s2 at 1 in E2; clearbody s2.
  subst st en.
  unfold gmux_notify_handler, gmux_interrupt_get_status, gmux_disable_interrupts,
    gmux_interrupt_activate_status, gmux_enable_interrupts.
  unfold GMUX_PORT_INTERRUPT_STATUS, GMUX_PORT_INTERRUPT_ENABLE,
    GMUX_INTERRUPT_DISABLE, GMUX_INTERRUPT_ENABLE.
  cbn [app] in E1, E2.
  repeat (step; rewrite ?E0, ?E1, ?I1, ?E2, ?land_status_power).
  destruct (s2 =? 0); destruct (Z.testbit s0 2); run; reflexivity.
Qed.

End InterruptProperties.

Section BrightnessProperties.
Context {abi : kernel_abi}.

Lemma land_0xff (z : Z) : Z.land z 0xFF = z mod 256.
Proof. change 0xFF with (Z.ones 8). now rewrite Z.land_ones by lia. Qed.

Lemma land_brightness_mask (z : Z) : Z.land z GMUX_BRIGHTNESS_MASK = z mod 2 ^ 24.
Proof.
  change GMUX_BRIGHTNESS_MASK with (Z.ones 24). now rewrite Z.land_ones by lia.
Qed.

Lemma gmux_get_brightness_run (bd : backlight_device) (m : machine) :
  gmux_get_brightness bd m =
  (to_int (Z.land (u32 (env_inl (world m) (trace m)
                                (iostart (gmux_data m) + GMUX_PORT_BRIGHTNESS)))
                  GMUX_BRIGHTNESS_MASK),
   add_events [EvInl (iostart (gmux_data m) + GMUX_PORT_BRIGHTNESS)
                     (u32 (env_inl (world m) (trace m)
                                   (iostart (gmux_data m) + GMUX_PORT_BRIGHTNESS)))] m).
Proof. unfold gmux_get_brightness. run. reflexivity. Qed.

(** Reading one port of the register file after appending events. *)
Lemma reg_byte_app (init : Z -> Z) (h1 h2 : list event) (port : Z) :
  reg_byte init (h1 ++ h2) port =
  fold_left (fun acc e => match e with
                          | EvOutb v p => if p =? port then v else acc
                          | _ => acc
                          end) h2 (reg_byte init h1 port).
Proof. unfold reg_byte; now rewrite fold_left_app. Qed.

Lemma bytes_assemble (v : Z) :
  0 <= v <= 0xFFFFFF ->
  v mod 256 + Z.shiftl (Z.shiftr v 8 mod 256) 8
  + Z.shiftl (Z.shiftr v 16 mod 256) 16 + Z.shiftl 0 24 = v.
Proof.
  intros Hv.
  rewrite !Z.shiftr_div_pow2, !Z.shiftl_mul_pow2 by lia.
  change (2 ^ 8) with 256; change (2 ^ 16) with 65536; change (2 ^ 24) with 16777216.
  Z.div_mod_to_equations. lia.
Qed.

(** C7: for a brightness [v] of at most 24 bits, [gmux_update_status] returns
    0 and performs exactly four byte writes, [v & 0xFF], [(v >> 8) & 0xFF],
    [(v >> 16) & 0xFF] and 0, to the consecutive ports 0x74 to 0x77; and on
    a register file that reflects writes, [gmux_get_brightness] right after
    it returns [v]. [gmux_get_brightness] returns the low 24 bits of the 32-bit
    read at port 0x74. *)
Theorem gmux_brightness_roundtrip (v mx : Z) :
  0 <= v <= 0xFFFFFF ->
  let bd := {| props := {| brightness := v; max_brightness := mx |} |} in
  (forall m,
      gmux_update_status bd m =
        (0, add_events [EvOutb (Z.land v 0xFF) (iostart (gmux_data m) + 0x74);
                        EvOutb (Z.land (Z.shiftr v 8) 0xFF) (iostart (gmux_data m) + 0x75);
                        EvOutb (Z.land (Z.shiftr v 16) 0xFF) (iostart (gmux_data m) + 0x76);
                        EvOutb 0 (iostart (gmux_data m) + 0x77)] m))
  /\ (forall m,
         fst (gmux_get_brightness bd m) =
         Z.land (u32 (env_inl (world m) (trace m) (iostart (gmux_data m) + 0x74)))
                0xFFFFFF)
  /\ (forall d init calls t,
         fst (bind (gmux_update_status bd) (fun _ => gmux_get_brightness bd)
                   {| gmux_data := d; world := register_file init calls; trace := t |})
         = v).
Proof.
  intros Hv bd.
  assert (Hu : u32 v = v) by (unfold u32; apply Z.mod_small; lia).
  assert (Hw : forall m,
      gmux_update_status bd m =
        (0, add_events [EvOutb (Z.land v 0xFF) (iostart (gmux_data m) + 0x74);
                        EvOutb (Z.land (Z.shiftr v 8) 0xFF) (iostart (gmux_data m) + 0x75);
                        EvOutb (Z.land (Z.shiftr v 16) 0xFF) (iostart (gmux_data m) + 0x76);
                        EvOutb 0 (iostart (gmux_data m) + 0x77)] m)).
  { intros m. rewrite gmux_update_status_run. subst bd. cbn [props brightness].
    rewrite Hu, !land_0xff. reflexivity. }
  split; [exact Hw|]. split.
  { intros m. rewrite gmux_get_brightness_run. cbn [fst].
    unfold GMUX_PORT_BRIGHTNESS, GMUX_BRIGHTNESS_MASK.
    set (x := Z.land _ _).
    assert (Hx : 0 <= x < 2 ^ 24).
    { subst x. change 0x00ffffff with (Z.ones 24).
      rewrite Z.land_ones by lia. apply Z.mod_pos_bound. lia. }
    unfold to_int. rewrite Z.mod_small by lia. lia. }
  intros d init calls t.
  rewrite bind_run, Hw. unfold gmux_get_brightness. run.
  cbn [world gmux_data trace iostart env_inl register_file add_events].
  rewrite !reg_byte_app. cbn [fold_left]. unfold GMUX_PORT_BRIGHTNESS.
  repeat match goal with
         | |- context [?a =? ?b] => destruct (Z.eqb_spec a b); try lia
         end.
  rewrite !land_0xff, bytes_assemble by assumption.
  rewrite Hu, land_brightness_mask.
  rewrite (Z.mod_small v) by lia.
  unfold to_int. rewrite Z.mod_small by lia. lia.
Qed.

End BrightnessProperties.

#[export] Hint Rewrite gmux_get_brightness_run gmux_update_status_run : gmux_prim.

Lemma gmux_brightness_roundtrip_witness :
  0 <= 0x123456 <= 0xFFFFFF
  /\ fst (bind (gmux_update_status
                  {| props := {| brightness := 0x123456; max_brightness := 0xFFFFFF |} |})
               (fun _ => gmux_get_brightness
                  {| props := {| brightness := 0x123456; max_brightness := 0xFFFFFF |} |})
               {| gmux_data := gmux_data (boot (constant_platform 0) 0x700);
                  world := register_file (fun _ => 0) (fun _ _ _ => (0, []));
                  trace := [] |})
     = 0x123456.
Proof.
  split; [lia|].
  apply (proj2 (proj2 (gmux_brightness_roundtrip 0x123456 0xFFFFFF ltac:(lia)))).
Defined.


Section ProbePresence.
Context {abi : kernel_abi}.

Lemma quiet_ret fmt {A} (a : A) : quiet fmt (ret a).
Proof. intros m; exists []; now rewrite app_nil_r. Qed.

Lemma quiet_bind fmt {A B} (c : M A) (k : A -> M B) :
  quiet fmt c -> (forall a, quiet fmt (k a)) -> quiet fmt (bind c k).
Proof.
  intros Hc Hk m. rewrite bind_run.
  destruct (Hc m) as (e1 & H1 & L1).
  destruct (Hk (fst (c m)) (snd (c m))) as (e2 & H2 & L2).
  exists (e1 ++ e2). rewrite H2, H1, app_assoc, logged_app, L1, L2. now split.
Qed.

Lemma quiet_if fmt {A} (b : bool) (c1 c2 : M A) :
  quiet fmt c1 -> quiet fmt c2 -> quiet fmt (if b then c1 else c2).
Proof. now destruct b. Qed.

Lemma quiet_emit fmt (e : event) : is_log fmt e = false -> quiet fmt (emit e).
Proof. intros He m; exists [e]; split; [reflexivity|]. cbn. now rewrite He. Qed.

Lemma quiet_printk fmt lvl f args :
  String.eqb f fmt = false -> quiet fmt (printk lvl f args).
Proof. intros H; now apply quiet_emit. Qed.

Lemma quiet_kcall fmt fn args : quiet fmt (kcall fn args).
Proof. intros m; eexists [_]; split; reflexivity. Qed.

Lemma quiet_get_data fmt : quiet fmt get_data.
Proof. intros m; exists []; now rewrite app_nil_r. Qed.

Lemma quiet_put_data fmt d : quiet fmt (put_data d).
Proof. intros m; exists []; cbn; now rewrite app_nil_r. Qed.

Lemma quiet_write8 fmt port val : quiet fmt (gmux_write8 port val).
Proof. intros m; eexists [_]; split; reflexivity. Qed.

Lemma quiet_read8 fmt port : quiet fmt (gmux_read8 port).
Proof. intros m; eexists [_]; split; reflexivity. Qed.

Lemma quiet_read32 fmt port : quiet fmt (gmux_read32 port).
Proof. intros m; eexists [_]; split; reflexivity. Qed.

End ProbePresence.

(** Decompose a computation into quiet pieces. *)
Ltac quiet_steps :=
  unfold pr_info, pr_err, init_completion, complete;
  repeat first
    [ apply quiet_ret
    | apply quiet_kcall
    | apply quiet_get_data
    | apply quiet_put_data
    | apply quiet_write8
    | apply quiet_read8
    | apply quiet_read32
    | apply quiet_printk; reflexivity
    | apply quiet_emit; reflexivity
    | apply quiet_if
    | apply quiet_bind; [|intros ?] ].

Section ProbePresenceCheck.
Context {abi : kernel_abi}.

(** What the probe does after a version triple passed the presence check
    never emits the not-present diagnostic. *)
Lemma quiet_get_brightness fmt bd : quiet fmt (gmux_get_brightness bd).
Proof. unfold gmux_get_brightness. quiet_steps. Qed.

Lemma quiet_update_status fmt bd : quiet fmt (gmux_update_status bd).
Proof. unfold gmux_update_status. quiet_steps. Qed.

(** C5: once the probe has its I/O window (resource found, at least 0x78
    long, region granted) it reads the three version bytes. It fails as "not
    present" (the diagnostic "gmux device not present", the region released,
    result -ENODEV) exactly when all three read 0xff. For every other triple
    it logs "Found gmux version" with that triple, goes on to read the
    maximum brightness, and never emits the not-present diagnostic. *)
Theorem gmux_probe_presence (pnp : pnp_dev) (res : resource) (m : machine) :
  pnp_io_resource pnp = Some res ->
  let start := ulong (res_start res) in
  let len := ulong (res_end res - res_start res) in
  GMUX_MIN_IO_LEN <= len ->
  let rr := env_call (world m) (trace m) "request_region"
                     [AInt start; AInt len; AStr "Apple gmux"] in
  fst rr <> 0 ->
  let call := EvCall "request_region" [AInt start; AInt len; AStr "Apple gmux"]
                     (fst rr) (snd rr) in
  let major := u8 (env_inb (world m) (trace m ++ [call]) (start + 0x04)) in
  let minor := u8 (env_inb (world m) (trace m ++ [call; EvInb (start + 0x04) major])
                           (start + 0x05)) in
  let release := u8 (env_inb (world m)
                       (trace m ++ [call; EvInb (start + 0x04) major;
                                    EvInb (start + 0x05) minor])
                       (start + 0x06)) in
  exists tail,
    trace (snd (gmux_probe pnp m)) =
      trace m ++ [call; EvInb (start + 0x04) major; EvInb (start + 0x05) minor;
                  EvInb (start + 0x06) release] ++ tail
    /\ if (major =? 0xff) && (minor =? 0xff) && (release =? 0xff)
       then fst (gmux_probe pnp m) = - ENODEV
            /\ exists out,
                 tail = [EvPrintk KERN_INFO "gmux device not present\n" [];
                         EvCall "release_region" [AInt start; AInt len] (fst out) (snd out)]
       else logged "gmux device not present\n" tail = false
            /\ exists mb rest,
                 tail = EvPrintk KERN_INFO "Found gmux version %d.%d.%d\n"
                                 [AInt major; AInt minor; AInt release]
                        :: EvInl (start + 0x70) mb :: rest.
Proof.
  intros Hres start len Hlen rr Hrr call major minor release.
  subst call.
  pose proof (eq_refl rr) as Er; unfold rr at 1 in Er; clearbody rr.
  pose proof (eq_refl major) as Emaj; unfold major at 1 in Emaj; clearbody major.
  pose proof (eq_refl minor) as Emin; unfold minor at 1 in Emin; clearbody minor.
  pose proof (eq_refl release) as Erel; unfold release at 1 in Erel; clearbody release.
  apply Z.ltb_ge in Hlen. apply Z.eqb_neq in Hrr.
  unfold gmux_probe. rewrite Hres. fold start len.
  unfold GMUX_PORT_VERSION_MAJOR, GMUX_PORT_VERSION_MINOR, GMUX_PORT_VERSION_RELEASE.
  do 2 step. rewrite Hlen. step. rewrite Er, Hrr.
  step. rewrite Emaj. step. rewrite Emin. step. rewrite Erel.
  clear Er Emaj Emin Erel Hres Hlen Hrr.
  destruct ((major =? 255) && (minor =? 255) && (release =? 255)).
  - unfold err_release, err_begin, release_region. walk.
    eexists; split; [reflexivity|]. split; [reflexivity|].
    eexists (_, _); reflexivity.
  - do 2 step.
    match goal with
    | |- context [trace (snd (?c ?m'))] =>
        assert (Hq : quiet "gmux device not present\n" c);
        [| destruct (Hq m') as (evs & Ht & Hl); rewrite Ht ]
    end.
    + unfold err_register, err_notify, err_release, err_begin, release_region,
        backlight_device_unregister, acpi_remove_notify_handler, gmux_enable_interrupts.
      quiet_steps; first [apply quiet_get_brightness | apply quiet_update_status].
    + autorewrite with gmux_prim.
      eexists; split; [reflexivity|]. split; [exact Hl|].
      do 2 eexists; reflexivity.
Qed.

End ProbePresenceCheck.

(** * Concrete runs *)

Lemma gmux_set_power_state_discrete_sequence_witness :
  writes (trace (snd (gmux_set_power_state (abi := linux_abi) 1 1
                        (boot (constant_platform 0) 0x700))))
    = [(0x750, 1); (0x750, 3)]
  /\ writes (trace (snd (gmux_set_power_state (abi := linux_abi) 1 0
                           (boot (constant_platform 0) 0x700))))
    = [(0x750, 1); (0x750, 0)].
Proof.
  destruct (gmux_set_power_state_discrete_sequence (abi := linux_abi) 1
              (boot (constant_platform 0) 0x700) ltac:(cbn; lia))
    as [(fw & w & out & H & _ & Hw) (Hoff & _)].
  destruct (Hoff 0 ltac:(cbn; lia)) as (fw' & w' & out' & H' & _ & Hw').
  cbn [VGA_SWITCHEROO_ON linux_abi] in H.
  split.
  - rewrite H. exact Hw.
  - rewrite H'. exact Hw'.
Defined.

(** C3 (as stated) fails. In the earlier revision a discrete power-off on a
    platform where the wait returns writes discrete-power = 0 only, not 1
    then 0, and neither looks up nor evaluates the firmware method. In
    apple_gmux.c, when the lookup of the method fails (status 1), power-on
    still writes 1 then 3 and returns 0, but the method is never
    evaluated. *)
Lemma power_sequence_fails :
  (fst (Part000.gmux_set_power_state (abi := linux_abi) 1 0
          (boot (constant_platform 1) 0x700)) = Some 0
   /\ writes (trace (snd (Part000.gmux_set_power_state (abi := linux_abi) 1 0
                            (boot (constant_platform 1) 0x700))))
      = [(0x750, 0)]
   /\ called "acpi_get_handle"
        (trace (snd (Part000.gmux_set_power_state (abi := linux_abi) 1 0
                       (boot (constant_platform 1) 0x700)))) = false
   /\ called "acpi_evaluate_object"
        (trace (snd (Part000.gmux_set_power_state (abi := linux_abi) 1 0
                       (boot (constant_platform 1) 0x700)))) = false)
  /\ (fst (gmux_set_power_state (abi := linux_abi) 1 1
             (boot (constant_platform 1) 0x700)) = 0
      /\ writes (trace (snd (gmux_set_power_state (abi := linux_abi) 1 1
                               (boot (constant_platform 1) 0x700))))
         = [(0x750, 1); (0x750, 3)]
      /\ called "acpi_get_handle"
           (trace (snd (gmux_set_power_state (abi := linux_abi) 1 1
                          (boot (constant_platform 1) 0x700)))) = true
      /\ called "acpi_evaluate_object"
           (trace (snd (gmux_set_power_state (abi := linux_abi) 1 1
                          (boot (constant_platform 1) 0x700)))) = false).
Proof. repeat split. Qed.

Lemma gmux_get_client_id_classify_witness :
  gmux_get_client_id (abi := linux_abi) {| vendor := 0x1002; device := 0x6741 |} = 1.
Proof.
  apply (proj2 (proj2 (gmux_get_client_id_classify (abi := linux_abi)))).
  - cbn; lia.
  - cbn; intros [H _]; lia.
Defined.

Lemma role_other_than_igd_is_discrete_witness :
  gmux_switchto (abi := linux_abi) 7 (boot (constant_platform 0) 0x700) =
    (0, add_events [EvOutb 2 (0x700 + 0x28); EvOutb 3 (0x700 + 0x10);
                    EvOutb 3 (0x700 + 0x40)] (boot (constant_platform 0) 0x700))
  /\ gmux_set_power_state (abi := linux_abi) 7 1 (boot (constant_platform 0) 0x700) =
     gmux_set_discrete_state (abi := linux_abi) 1 (boot (constant_platform 0) 0x700).
Proof.
  destruct (role_other_than_igd_is_discrete (abi := linux_abi) 7 1
              {| props := {| brightness := 0; max_brightness := 0 |} |}
              (boot (constant_platform 0) 0x700)) as [_ H].
  destruct (H ltac:(cbn; lia)) as (H1 & _ & H3).
  split; assumption.
Defined.

Lemma gmux_probe_presence_witness :
  fst (gmux_probe (abi := linux_abi) apple_pnp (boot (constant_platform 0xff) 0)) = - 19
  /\ logged "gmux device not present\n"
       (trace (snd (gmux_probe (abi := linux_abi) apple_pnp
                      (boot (constant_platform 0xff) 0)))) = true.
Proof.
  pose proof (gmux_probe_presence (abi := linux_abi) apple_pnp
                {| res_start := 0x700; res_end := 0x7ff |}
                (boot (constant_platform 0xff) 0) eq_refl) as H.
  cbv zeta in H.
  destruct (H ltac:(vm_compute; discriminate) ltac:(vm_compute; discriminate))
    as (tail & Ht & Hif).
  match type of Hif with
  | (if ?c then _ else _) => replace c with true in Hif by (vm_compute; reflexivity)
  end.
  destruct Hif as (Hr & out & Htail).
  split; [exact Hr|].
  rewrite Ht, Htail. reflexivity.
Defined.

(** C2 on concrete runs: when the wait times out (returns 0) the power-on
    sequence ends without any "completion timeout" message; when the
    completion arrives in time (the wait returns the 150 jiffies left) the
    message is logged. Both calls return 0. *)
Lemma completion_timeout_log_inverted :
  (fst (wait_for_completion_interruptible_timeout 200
          (boot (constant_platform 0) 0x700)) = 0
   /\ gmux_set_power_state (abi := linux_abi) 1 1 (boot (constant_platform 0) 0x700) =
      (0, add_events
            [EvInitCompletion;
             EvCall "acpi_get_handle" [AInt 0; AStr "\_SB_.PCI0.P0P2.GFX0.PWRD"] 0 [];
             EvCall "acpi_evaluate_object" [AInt 0; AInt 0; AInt 0] 0 [];
             EvCall "kfree" [AInt 0] 0 [];
             EvPrintk KERN_INFO "PWRD call successful\n" [];
             EvOutb 1 0x750; EvOutb 3 0x750;
             EvPrintk KERN_INFO "discrete card powered up\n" [];
             EvCall "wait_for_completion_interruptible_timeout" [AInt 200] 0 []]
            (boot (constant_platform 0) 0x700)))
  /\ (fst (wait_for_completion_interruptible_timeout 200
             (boot completing_platform 0x700)) = 150
      /\ gmux_set_power_state (abi := linux_abi) 1 1 (boot completing_platform 0x700) =
         (0, add_events
               [EvInitCompletion;
                EvCall "acpi_get_handle" [AInt 0; AStr "\_SB_.PCI0.P0P2.GFX0.PWRD"] 0 [];
                EvCall "acpi_evaluate_object" [AInt 0; AInt 0; AInt 0] 0 [];
                EvCall "kfree" [AInt 0] 0 [];
                EvPrintk KERN_INFO "PWRD call successful\n" [];
                EvOutb 1 0x750; EvOutb 3 0x750;
                EvPrintk KERN_INFO "discrete card powered up\n" [];
                EvCall "wait_for_completion_interruptible_timeout" [AInt 200] 150 [];
                EvPrintk KERN_INFO "completion timeout\n" []]
               (boot completing_platform 0x700))).
Proof. repeat split. Qed.

(** * The earlier revision, where it differs *)

Section Part000Properties.
Context {abi : kernel_abi}.

(** Power sequencing in the earlier revision: no firmware call; power-on
    writes 1 then 3, power-off writes only 0; the wait has no timeout, so the
    call returns (with 0) only if the completion is ever fulfilled. *)
Lemma part000_set_discrete_state_run (state : Z) (m : machine) :
  let P := iostart (gmux_data m) + 0x50 in
  let body :=
    EvInitCompletion ::
    (if state =? VGA_SWITCHEROO_ON
     then [EvOutb 1 P; EvOutb 3 P; EvPrintk KERN_INFO "discrete powered up\n" []]
     else [EvOutb 0 P; EvPrintk KERN_INFO "discrete powered down\n" []])
    ++ [EvPrintk KERN_INFO "before completion\n" []] in
  let r := env_call (world m) (trace m ++ body) "wait_for_completion" [] in
  Part000.gmux_set_discrete_state state m =
    (if fst r =? 0 then None else Some 0,
     add_events (body ++ EvCall "wait_for_completion" [] (fst r) (snd r)
                      :: (if fst r =? 0 then []
                          else [EvPrintk KERN_INFO "after completion\n" []])) m).
Proof.
  intros P body r; subst P body r.
  unfold Part000.gmux_set_discrete_state, Part000.wait_for_completion,
    GMUX_PORT_DISCRETE_POWER.
  destruct (state =? VGA_SWITCHEROO_ON); run;
    match goal with |- context [fst ?r =? 0] => destruct (fst r =? 0) end;
    run; reflexivity.
Qed.

End Part000Properties.

(** The earlier handler fulfils the completion only when the status is
    exactly the power bit; a status with the power bit and the display bit
    (5) is ignored there and honoured by [gmux_notify_handler]. *)
Lemma part000_gpe_handler_exact_status :
  existsb is_complete
    (trace (snd (Part000.gmux_gpe_handler (boot (constant_platform 5) 0x700)))) = false
  /\ existsb is_complete
       (trace (snd (gmux_notify_handler (boot (constant_platform 5) 0x700)))) = true
  /\ existsb is_complete
       (trace (snd (Part000.gmux_gpe_handler (boot (constant_platform 4) 0x700)))) = true.
Proof. repeat split. Qed.

(** The earlier revision never returns from a power change whose completion
    is never fulfilled, and classifies the NVIDIA 9400M (0x0863) as
    discrete. *)
Lemma part000_differences :
  fst (Part000.gmux_set_power_state (abi := linux_abi) 1 1
         (boot (constant_platform 0) 0x700)) = None
  /\ writes (trace (snd (Part000.gmux_set_power_state (abi := linux_abi) 1 0
                           (boot (constant_platform 0) 0x700)))) = [(0x750, 0)]
  /\ Part000.gmux_get_client_id (abi := linux_abi) {| vendor := 0x10de; device := 0x0863 |}
     = 1.
Proof. repeat split. Qed.

Section Part000Probe.
Context {abi : kernel_abi}.

(** The presence check of the earlier probe is the same: once the driver
    data is allocated and the I/O window is granted, the probe fails as
    "not present" with -ENODEV exactly when the three version bytes all read
    0xff, and otherwise logs the version and goes on without ever emitting
    the not-present diagnostic. *)
Lemma part000_gmux_probe_presence (pnp : pnp_dev) (res : resource) (m : machine) :
  pnp_io_resource pnp = Some res ->
  let start := ulong (res_start res) in
  let len := ulong (res_end res - res_start res) in
  GMUX_MIN_IO_LEN <= len ->
  let rk := env_call (world m) (trace m) "kzalloc"
                     [AStr "sizeof(*gmux_data)"; AStr "GFP_KERNEL"] in
  fst rk <> 0 ->
  let kz := EvCall "kzalloc" [AStr "sizeof(*gmux_data)"; AStr "GFP_KERNEL"]
                   (fst rk) (snd rk) in
  let rs := env_call (world m) (trace m ++ [kz]) "pnp_set_drvdata" [AInt (fst rk)] in
  let sd := EvCall "pnp_set_drvdata" [AInt (fst rk)] (fst rs) (snd rs) in
  let rr := env_call (world m) (trace m ++ [kz; sd]) "request_region"
                     [AInt start; AInt len; AStr "Apple gmux"] in
  fst rr <> 0 ->
  let call := EvCall "request_region" [AInt start; AInt len; AStr "Apple gmux"]
                     (fst rr) (snd rr) in
  let major := u8 (env_inb (world m) (trace m ++ [kz; sd; call]) (start + 0x04)) in
  let minor := u8 (env_inb (world m)
                     (trace m ++ [kz; sd; call; EvInb (start + 0x04) major])
                     (start + 0x05)) in
  let release := u8 (env_inb (world m)
                       (trace m ++ [kz; sd; call; EvInb (start + 0x04) major;
                                    EvInb (start + 0x05) minor])
                       (start + 0x06)) in
  exists tail,
    trace (snd (Part000.gmux_probe pnp m)) =
      trace m ++ [kz; sd; call; EvInb (start + 0x04) major; EvInb (start + 0x05) minor;
                  EvInb (start + 0x06) release] ++ tail
    /\ if (major =? 0xff) && (minor =? 0xff) && (release =? 0xff)
       then fst (Part000.gmux_probe pnp m) = - ENODEV
            /\ logged "gmux device not present\n" tail = true
       else logged "gmux device not present\n" tail = false
            /\ exists mb rest,
                 tail = EvPrintk KERN_INFO "Found gmux version %d.%d.%d\n"
                                 [AInt major; AInt minor; AInt release]
                        :: EvInl (start + 0x70) mb :: rest.
Proof.
  intros Hres start len Hlen rk Hrk kz rs sd rr Hrr call major minor release.
  subst call sd kz.
  pose proof (eq_refl rk) as Ek; unfold rk at 1 in Ek; clearbody rk.
  pose proof (eq_refl rs) as Es; unfold rs at 1 in Es; clearbody rs.
  pose proof (eq_refl rr) as Er; unfold rr at 1 in Er; clearbody rr.
  pose proof (eq_refl major) as Emaj; unfold major at 1 in Emaj; clearbody major.
  pose proof (eq_refl minor) as Emin; unfold minor at 1 in Emin; clearbody minor.
  pose proof (eq_refl release) as Erel; unfold release at 1 in Erel; clearbody release.
  apply Z.ltb_ge in Hlen. apply Z.eqb_neq in Hrr. apply Z.eqb_neq in Hrk.
  unfold Part000.gmux_probe.
  unfold GMUX_PORT_VERSION_MAJOR, GMUX_PORT_VERSION_MINOR, GMUX_PORT_VERSION_RELEASE.
  step. rewrite Ek, Hrk. do 2 step. rewrite Es, Hres. fold start len.
  do 2 step. rewrite Hlen. step. rewrite Er, Hrr.
  step. rewrite Emaj. step. rewrite Emin. step. rewrite Erel.
  clear Ek Es Er Emaj Emin Erel Hres Hlen Hrr Hrk.
  destruct ((major =? 255) && (minor =? 255) && (release =? 255)).
  - unfold Part000.err_release, Part000.err_free, release_region. walk.
    eexists; split; [reflexivity|]. split; reflexivity.
  - do 2 step.
    match goal with
    | |- context [trace (snd (?c ?m'))] =>
        assert (Hq : quiet "gmux device not present\n" c);
        [| destruct (Hq m') as (evs & Ht & Hl); rewrite Ht ]
    end.
    + unfold Part000.err_switcheroo, Part000.err_enable_gpe, Part000.err_release,
        Part000.err_free, release_region, backlight_device_unregister,
        gmux_enable_interrupts.
      quiet_steps; first [apply quiet_get_brightness | apply quiet_update_status].
    + autorewrite with gmux_prim.
      eexists; split; [reflexivity|]. split; [exact Hl|].
      do 2 eexists; reflexivity.
Qed.

End Part000Probe.

(** * Resources, failure paths and round trips *)

Lemma emitted_add_events d' evs m : emitted m (set_gmux_data d' (add_events evs m)) = evs.
Proof.
  unfold emitted; cbn. rewrite skipn_app, Nat.sub_diag, skipn_all. reflexivity.
Qed.

Lemma wp_sound {A} (c : M A) d Q m :
  wp c d Q -> gmux_data m = d ->
  Q (fst (c m)) (gmux_data (snd (c m))) (emitted m (snd (c m)))
  /\ world (snd (c m)) = world m
  /\ trace (snd (c m)) = trace m ++ emitted m (snd (c m)).
Proof.
  intros H Hd. destruct (H m Hd) as (d' & evs & Hs & HQ).
  rewrite Hs, emitted_add_events. cbn. auto.
Qed.

Lemma wp_ret {A} (a : A) d (Q : A -> apple_gmux_data -> list event -> Prop) :
  Q a d [] -> wp (ret a) d Q.
Proof.
  intros H m Hd. exists d, []. split; [|exact H].
  destruct m; cbn in *; subst; unfold set_gmux_data, add_events; cbn.
  now rewrite app_nil_r.
Qed.

Lemma wp_bind {A B} (c : M A) (k : A -> M B) d Q :
  wp c d (fun a d1 e1 => wp (k a) d1 (fun b d2 e2 => Q b d2 (e1 ++ e2))) ->
  wp (bind c k) d Q.
Proof.
  intros H m Hd. rewrite bind_run.
  destruct (H m Hd) as (d1 & e1 & Hs & Hk). rewrite Hs.
  destruct (Hk (set_gmux_data d1 (add_events e1 m)) eq_refl) as (d2 & e2 & Hs2 & HQ).
  exists d2, (e1 ++ e2). split; [|exact HQ].
  rewrite Hs2. unfold set_gmux_data, add_events; cbn. now rewrite app_assoc.
Qed.

Lemma wp_conseq {A} (c : M A) d (Q Q' : A -> apple_gmux_data -> list event -> Prop) :
  wp c d Q -> (forall a d' e, Q a d' e -> Q' a d' e) -> wp c d Q'.
Proof.
  intros H HQ m Hd. destruct (H m Hd) as (d' & e & Hs & Hq). exists d', e. auto.
Qed.

Lemma wp_get_data d (Q : apple_gmux_data -> apple_gmux_data -> list event -> Prop) :
  Q d d [] -> wp get_data d Q.
Proof.
  intros H m Hd. exists d, []. subst d. split; [|exact H].
  destruct m; unfold set_gmux_data, add_events; cbn. now rewrite app_nil_r.
Qed.

Lemma wp_put_data d d' (Q : unit -> apple_gmux_data -> list event -> Prop) :
  Q tt d' [] -> wp (put_data d') d Q.
Proof.
  intros H m Hd. exists d', []. split; [|exact H].
  destruct m; unfold set_gmux_data, add_events; cbn. now rewrite app_nil_r.
Qed.

Lemma wp_emit e d (Q : unit -> apple_gmux_data -> list event -> Prop) :
  Q tt d [e] -> wp (emit e) d Q.
Proof.
  intros H m Hd. exists d, [e]. subst d. split; [|exact H].
  destruct m; reflexivity.
Qed.

Lemma wp_printk lvl fmt args d (Q : unit -> apple_gmux_data -> list event -> Prop) :
  Q tt d [EvPrintk lvl fmt args] -> wp (printk lvl fmt args) d Q.
Proof. apply wp_emit. Qed.

Lemma wp_kcall fn args d (Q : Z * list arg -> apple_gmux_data -> list event -> Prop) :
  (forall r, Q r d [EvCall fn args (fst r) (snd r)]) -> wp (kcall fn args) d Q.
Proof.
  intros H m Hd. exists d, [EvCall fn args (fst (env_call (world m) (trace m) fn args))
                                   (snd (env_call (world m) (trace m) fn args))].
  subst d. split; [destruct m; reflexivity | apply H].
Qed.

Lemma wp_read8 port d (Q : Z -> apple_gmux_data -> list event -> Prop) :
  (forall v, 0 <= v < 256 -> Q v d [EvInb (iostart d + port) v]) ->
  wp (gmux_read8 port) d Q.
Proof.
  intros H m Hd. exists d, [EvInb (iostart d + port)
                               (u8 (env_inb (world m) (trace m) (iostart d + port)))].
  subst d. split; [destruct m; reflexivity | apply H, u8_range].
Qed.

Lemma wp_read32 port d (Q : Z -> apple_gmux_data -> list event -> Prop) :
  (forall v, 0 <= v < 2 ^ 32 -> Q v d [EvInl (iostart d + port) v]) ->
  wp (gmux_read32 port) d Q.
Proof.
  intros H m Hd. exists d, [EvInl (iostart d + port)
                               (u32 (env_inl (world m) (trace m) (iostart d + port)))].
  subst d. split; [destruct m; reflexivity | apply H].
  unfold u32. apply Z.mod_pos_bound. lia.
Qed.

Lemma wp_write8 port val d (Q : unit -> apple_gmux_data -> list event -> Prop) :
  Q tt d [EvOutb (u8 val) (iostart d + port)] -> wp (gmux_write8 port val) d Q.
Proof.
  intros H m Hd. exists d, [EvOutb (u8 val) (iostart d + port)].
  subst d. split; [destruct m; reflexivity | exact H].
Qed.

Ltac wp_step :=
  first
    [ apply wp_ret
    | apply wp_get_data
    | apply wp_put_data
    | apply wp_kcall; intros ?
    | apply wp_read8; intros ? ?
    | apply wp_read32; intros ? ?
    | apply wp_write8
    | apply wp_printk
    | apply wp_emit
    | apply wp_bind
    | match goal with
      | |- wp (if ?b then _ else _) _ _ => destruct b eqn:?
      | |- wp (match ?o with Some _ => _ | None => _ end) _ _ => destruct o eqn:?
      end ];
  cbv beta.

Section ProbeArithmetic.
Context {abi : kernel_abi}.

Lemma brightness_bytes (v : Z) :
  0 <= v < 2 ^ 32 ->
  u8 (u32 (to_int (Z.land v GMUX_BRIGHTNESS_MASK))) = Z.land v 0xFF
  /\ u8 (Z.shiftr (u32 (to_int (Z.land v GMUX_BRIGHTNESS_MASK))) 8)
     = Z.land (Z.shiftr v 8) 0xFF
  /\ u8 (Z.shiftr (u32 (to_int (Z.land v GMUX_BRIGHTNESS_MASK))) 16)
     = Z.land (Z.shiftr v 16) 0xFF.
Proof.
  intros Hv. rewrite land_brightness_mask, !land_0xff.
  assert (Hb : 0 <= v mod 2 ^ 24 < 2 ^ 24) by (apply Z.mod_pos_bound; lia).
  assert (Hi : to_int (v mod 2 ^ 24) = v mod 2 ^ 24).
  { unfold to_int. rewrite Z.mod_small by lia. lia. }
  rewrite Hi. unfold u32, u8. rewrite (Z.mod_small (v mod 2 ^ 24)) by lia.
  rewrite !Z.shiftr_div_pow2 by lia.
  change (2 ^ 8) with 256; change (2 ^ 16) with 65536; change (2 ^ 24) with 16777216.
  repeat split; Z.div_mod_to_equations; lia.
Qed.

Lemma IS_ERR_to_int (p : Z) : IS_ERR p = true -> to_int p <> 0.
Proof.
  unfold IS_ERR, to_int. intros H.
  apply andb_true_iff in H. destruct H as [H1 H2].
  apply Z.leb_le in H1. apply Z.ltb_lt in H2.
  change (2 ^ 31) with 2147483648. change (2 ^ 32) with 4294967296.
  rewrite Z.mod_small by lia. lia.
Qed.

End ProbeArithmetic.

(** Use the tests a path went through. *)
Ltac use_tests :=
  repeat match goal with
         | H : ?b = true |- context [?b] => rewrite H
         | H : ?b = false |- context [?b] => rewrite H
         end.

Ltac tests_to_props :=
  repeat match goal with
         | H : negb _ = true |- _ => apply negb_true_iff in H
         | H : negb _ = false |- _ => apply negb_false_iff in H
         | H : (_ <? _) = true |- _ => apply Z.ltb_lt in H
         | H : (_ <? _) = false |- _ => apply Z.ltb_ge in H
         | H : (_ =? _) = true |- _ => apply Z.eqb_eq in H
         | H : (_ =? _) = false |- _ => apply Z.eqb_neq in H
         end.

Ltac split_last2 :=
  match goal with
  | |- exists pre, ?L = pre ++ _ => exists (removelast (removelast L)); reflexivity
  end.

Section ProbeSummaryProof.
Context {abi : kernel_abi}.

Lemma gmux_probe_summary (pnp : pnp_dev) d :
  0 < ENXIO -> 0 < ENODEV ->
  wp (gmux_probe pnp) d (probe_summary pnp).
Proof.
  intros Hx Hn.
  unfold gmux_probe, err_register, err_notify, err_release, err_begin, release_region,
    backlight_device_unregister, acpi_remove_notify_handler, gmux_enable_interrupts,
    gmux_get_brightness, gmux_update_status, pr_info, pr_err, init_completion.
  cbv zeta.
  repeat wp_step.
  all: unfold probe_summary.
  all: cbn -[IS_ERR ACPI_FAILURE to_int Z.min Z.add Z.sub ulong u8 u32 Z.land Z.shiftr Z.opp].
  all: use_tests.
  all: cbn [negb andb app flat_map map].
  all: unfold GMUX_PORT_VERSION_MAJOR, GMUX_PORT_VERSION_MINOR, GMUX_PORT_VERSION_RELEASE,
    GMUX_PORT_MAX_BRIGHTNESS, GMUX_PORT_BRIGHTNESS, GMUX_PORT_INTERRUPT_ENABLE,
    GMUX_MIN_IO_LEN, GMUX_INTERRUPT_ENABLE in *.
  all: unfold GMUX_PORT_BRIGHTNESS in *.
  all: try match goal with H : IS_ERR _ = true |- _ => apply IS_ERR_to_int in H end.
  all: tests_to_props.
  all: repeat match goal with |- _ /\ _ => split end.
  all: try (intros; exfalso; lia).
  all: try reflexivity.
  all: try (intros; discriminate).
  all: try lia.
  all: try split_last2.
  all: try solve [intros _; repeat split; try reflexivity; destruct (_ =? 0); reflexivity].
  all: try solve [repeat (constructor;
                          [ left; unfold in_window; cbn [fst snd]; lia | ]);
                  constructor].
  all: try solve [intros _; split; [split_last2 | repeat split; try reflexivity; lia]].
  all: try solve [intros; split; [lia | reflexivity]].
  all: try solve [intros ? []].
  all: intros g [<-|[]]; cbn [fst]; split.
  all: rewrite ?Z.eqb_refl;
    repeat match goal with
           | |- context [?a =? ?b] => destruct (Z.eqb_spec a b); try lia
           | |- context [?a <=? ?b] => destruct (Z.leb_spec a b); try lia
           end;
    cbn [map app flat_map andb filter fst snd].
  all: try reflexivity.
  all: try solve [f_equal; unfold GMUX_MAX_BRIGHTNESS, GMUX_BRIGHTNESS_MASK in *; lia].
  all: try solve [unfold brightness_commit; cbn [app];
                  match goal with
                  | Hv : 0 <= ?v < 2 ^ 32 |- context [Z.land ?v GMUX_BRIGHTNESS_MASK] =>
                      destruct (brightness_bytes v Hv) as (-> & -> & ->)
                  end;
                  change (u8 0) with 0;
                  repeat f_equal; lia].
Qed.
End ProbeSummaryProof.

Section ProbeOutcomes.
Context {abi : kernel_abi}.

Lemma gmux_probe_facts (pnp : pnp_dev) (m : machine) :
  0 < ENXIO -> 0 < ENODEV ->
  probe_summary pnp (fst (gmux_probe pnp m)) (gmux_data (snd (gmux_probe pnp m)))
                (emitted m (snd (gmux_probe pnp m))).
Proof.
  intros Hx Hn.
  apply (wp_sound (gmux_probe pnp) (gmux_data m) (probe_summary pnp) m
                  (gmux_probe_summary pnp (gmux_data m) Hx Hn) eq_refl).
Qed.

(** A failed probe gives back the I/O region: every region that
    [request_region] granted is released by exactly one [release_region]
    call with the same start and length, and nothing else is released. *)
Theorem gmux_probe_failure_releases_region (pnp : pnp_dev) (m : machine) :
  0 < ENXIO -> 0 < ENODEV ->
  fst (gmux_probe pnp m) <> 0 ->
  releases (emitted m (snd (gmux_probe pnp m)))
  = grants (emitted m (snd (gmux_probe pnp m))).
Proof.
  intros Hx Hn Hr. destruct (gmux_probe_facts pnp m Hx Hn) as (_ & Hf & _).
  apply (Hf Hr).
Qed.

(** A failed probe leaves no notify handler behind: the handlers removed
    are exactly the handlers whose installation succeeded. *)
Theorem gmux_probe_failure_removes_handler (pnp : pnp_dev) (m : machine) :
  0 < ENXIO -> 0 < ENODEV ->
  fst (gmux_probe pnp m) <> 0 ->
  removed (emitted m (snd (gmux_probe pnp m)))
  = installed (emitted m (snd (gmux_probe pnp m))).
Proof.
  intros Hx Hn Hr. destruct (gmux_probe_facts pnp m Hx Hn) as (_ & Hf & _).
  apply (Hf Hr).
Qed.

(** A failed probe unregisters the backlight device it registered, except
    when the failure is the missing ACPI handle: then the device stays
    registered. *)
Theorem gmux_probe_failure_backlight (pnp : pnp_dev) (m : machine) :
  0 < ENXIO -> 0 < ENODEV ->
  fst (gmux_probe pnp m) <> 0 ->
  unregistered (emitted m (snd (gmux_probe pnp m)))
  = if pnp_acpi_handle pnp =? 0 then []
    else registered (emitted m (snd (gmux_probe pnp m))).
Proof.
  intros Hx Hn Hr. destruct (gmux_probe_facts pnp m Hx Hn) as (_ & Hf & _).
  apply (Hf Hr).
Qed.

(** A successful probe holds what the driver data records: one granted
    region (iostart, iolen) of at least 0x78 bytes, one registered backlight
    device (bdev), one installed notify handler on the device's ACPI handle
    (dhandle); it released, unregistered and removed nothing; and its last
    two actions are arming the completion and then enabling interrupts. *)
Theorem gmux_probe_success (pnp : pnp_dev) (m : machine) :
  0 < ENXIO -> 0 < ENODEV ->
  fst (gmux_probe pnp m) = 0 ->
  let d' := gmux_data (snd (gmux_probe pnp m)) in
  let evs := emitted m (snd (gmux_probe pnp m)) in
  (exists pre, evs = pre ++ [EvInitCompletion; EvOutb 255 (iostart d' + 0x14)])
  /\ grants evs = [(iostart d', iolen d')]
  /\ registered evs = [bdev d']
  /\ installed evs = [dhandle d']
  /\ dhandle d' = pnp_acpi_handle pnp
  /\ GMUX_MIN_IO_LEN <= iolen d'
  /\ releases evs = [] /\ unregistered evs = [] /\ removed evs = [].
Proof.
  intros Hx Hn Hr. destruct (gmux_probe_facts pnp m Hx Hn) as (Hs & _).
  apply (Hs Hr).
Qed.

Lemma accesses_width (t : list event) :
  Forall (fun a => 1 <= snd a) (accesses t).
Proof.
  unfold accesses. apply Forall_flat_map, Forall_forall. intros e _.
  destruct e; repeat constructor; cbn; lia.
Qed.

(** The probe touches only ports of a region it was granted. The driver
    adds the port offset to the window start in unsigned long; provided no
    granted region wraps around that range, every port access (byte or
    32-bit) lies inside a granted region and its port sum does not wrap, so
    the port recorded is the port the driver computes. A probe that was
    granted nothing does no port I/O and fails with -ENXIO. *)
Theorem gmux_probe_ports_in_window (pnp : pnp_dev) (m : machine) :
  0 < ENXIO -> 0 < ENODEV ->
  let evs := emitted m (snd (gmux_probe pnp m)) in
  Forall (fun g => 0 <= fst g /\ fst g + snd g <= 2 ^ 64) (grants evs) ->
  Forall (fun a => Exists (fun g => in_window g a) (grants evs)
                   /\ ulong (fst a) = fst a) (accesses evs)
  /\ (grants evs = [] -> accesses evs = [] /\ fst (gmux_probe pnp m) = - ENXIO).
Proof.
  intros Hx Hn evs Hfit.
  destruct (gmux_probe_facts pnp m Hx Hn) as (_ & _ & Hw & Hg & _).
  fold evs in Hw, Hg. split.
  - pose proof (accesses_width evs) as Hwd.
    rewrite Forall_forall in *. intros a Ha. split; [apply (Hw a Ha)|].
    specialize (Hw a Ha). specialize (Hwd a Ha). cbv beta in Hw, Hwd.
    apply Exists_exists in Hw. destruct Hw as (g & Hin & Hlo & Hhi).
    destruct (Hfit g Hin) as [H0 H1].
    unfold ulong. apply Z.mod_small. lia.
  - intros Hno. split; [|apply (Hg Hno)].
    rewrite Hno in Hw. destruct (accesses evs) as [|a l]; [reflexivity|].
    inversion Hw as [|? ? Ha _]. inversion Ha.
Qed.

(** The maximum brightness handed to the backlight subsystem is the 32-bit
    value read at 0x70 taken as an int and capped at 0xffffff: it never
    exceeds the 24-bit mask. *)
Theorem gmux_probe_max_brightness_capped (pnp : pnp_dev) (m : machine) :
  0 < ENXIO -> 0 < ENODEV ->
  let evs := emitted m (snd (gmux_probe pnp m)) in
  (forall g, In g (grants evs) ->
     register_max evs =
     map (fun v => Z.min (to_int v) GMUX_MAX_BRIGHTNESS) (inl_at (fst g + 0x70) evs))
  /\ Forall (fun mb => mb <= GMUX_MAX_BRIGHTNESS) (register_max evs).
Proof.
  intros Hx Hn evs. destruct (gmux_probe_facts pnp m Hx Hn) as (_ & _ & _ & Hg & Hb).
  fold evs in Hg, Hb. split; [intros g Hin; apply (Hb g Hin)|].
  destruct (grants evs) as [|g l] eqn:E.
  - destruct (Hg eq_refl) as [_ ->]. constructor.
  - destruct (Hb g (or_introl eq_refl)) as [-> _].
    apply Forall_forall. intros mb Hin. apply in_map_iff in Hin.
    destruct Hin as (v & <- & _). lia.
Qed.

(** The probe's initial brightness sync is a write-back: the only writes to
    the four brightness ports are the byte commit of the low 24 bits of the
    brightness it has just read there. *)
Theorem gmux_probe_brightness_write_back (pnp : pnp_dev) (m : machine) :
  0 < ENXIO -> 0 < ENODEV ->
  let evs := emitted m (snd (gmux_probe pnp m)) in
  forall g, In g (grants evs) ->
    bl_writes (fst g) evs =
    flat_map (brightness_commit (fst g)) (inl_at (fst g + 0x74) evs).
Proof.
  intros Hx Hn evs g Hin.
  destruct (gmux_probe_facts pnp m Hx Hn) as (_ & _ & _ & _ & Hb).
  apply (Hb g Hin).
Qed.

End ProbeOutcomes.

Section RemoveAndFirmware.
Context {abi : kernel_abi}.

(** What [gmux_remove] gives back, read off the driver data it starts with. *)
Lemma gmux_remove_summary d :
  wp gmux_remove d (fun _ d' evs =>
    d' = d
    /\ releases evs = [(iostart d, iolen d)]
    /\ unregistered evs = [bdev d]
    /\ removed evs = [dhandle d]
    /\ writes evs = [(iostart d + 0x14, 0)]
    /\ grants evs = [] /\ registered evs = [] /\ installed evs = []
    /\ called "vga_switcheroo_unregister_handler" evs = true).
Proof.
  unfold gmux_remove, release_region, backlight_device_unregister,
    acpi_remove_notify_handler, gmux_disable_interrupts.
  repeat wp_step.
  all: cbn -[ACPI_FAILURE Z.add]; repeat split; reflexivity.
Qed.

(** Removing the driver after a successful probe gives back exactly what the
    probe acquired: it releases the granted region, unregisters the
    registered backlight device and removes the installed notify handler,
    and its only register write disables interrupts. *)
Theorem gmux_remove_undoes_probe (pnp : pnp_dev) (m : machine) :
  0 < ENXIO -> 0 < ENODEV ->
  fst (gmux_probe pnp m) = 0 ->
  let m1 := snd (gmux_probe pnp m) in
  let probed := emitted m m1 in
  let undone := emitted m1 (snd (gmux_remove m1)) in
  releases undone = grants probed
  /\ unregistered undone = registered probed
  /\ removed undone = installed probed
  /\ writes undone = [(iostart (gmux_data m1) + 0x14, 0)]
  /\ gmux_data (snd (gmux_remove m1)) = gmux_data m1.
Proof.
  intros Hx Hn Hr m1 probed undone.
  destruct (gmux_probe_facts pnp m Hx Hn) as (Hs & _).
  destruct (Hs Hr) as (_ & Hg & Hb & Hi & _).
  fold m1 in Hg, Hb, Hi. fold probed in Hg, Hb, Hi.
  destruct (wp_sound gmux_remove (gmux_data m1) _ m1 (gmux_remove_summary _) eq_refl)
    as ((Hd & Hrel & Hun & Hrm & Hw & _) & _).
  fold undone in Hrel, Hun, Hrm, Hw.
  rewrite Hg, Hb, Hi. repeat split; assumption.
Qed.

(** [gmux_call_acpi_pwrd] has three outcomes and no other: the handle lookup
    fails (one diagnostic, result -ENODEV, the method is not evaluated); the
    lookup succeeds and the evaluation fails (one diagnostic, result
    -ENODEV, nothing is freed); or both succeed (the method is evaluated on
    the handle found with the one integer argument, its result buffer is
    freed, result 0). The method receives the int argument as a 64-bit
    unsigned ACPI integer: [arg] modulo 2^64, so -1 arrives as 2^64 - 1. *)
Theorem gmux_call_acpi_pwrd_outcomes (arg : Z) (m : machine) :
  let r := fst (gmux_call_acpi_pwrd arg m) in
  let evs := emitted m (snd (gmux_call_acpi_pwrd arg m)) in
  let lookup st out :=
    EvCall "acpi_get_handle" [AInt 0; AStr "\_SB_.PCI0.P0P2.GFX0.PWRD"] st out in
  let evaluate h st out :=
    EvCall "acpi_evaluate_object" [AInt h; AInt 0; AInt (u64 arg)] st out in
  gmux_data (snd (gmux_call_acpi_pwrd arg m)) = gmux_data m
  /\ ((exists st out,
         ACPI_FAILURE st = true /\ r = - ENODEV
         /\ evs = [lookup st out;
                   EvPrintk KERN_ERR "Cannot get PWRD handle: %s\n"
                            [AStr (acpi_format_exception st)]])
      \/ (exists st out st2 out2,
            ACPI_FAILURE st = false /\ ACPI_FAILURE st2 = true /\ r = - ENODEV
            /\ evs = [lookup st out; evaluate (out_int 0 out) st2 out2;
                      EvPrintk KERN_ERR "PWRD call failed: %s\n"
                               [AStr (acpi_format_exception st2)]])
      \/ (exists st out st2 out2 k kout,
            ACPI_FAILURE st = false /\ ACPI_FAILURE st2 = false /\ r = 0
            /\ evs = [lookup st out; evaluate (out_int 0 out) st2 out2;
                      EvCall "kfree" [AInt (out_int 0 out2)] k kout;
                      EvPrintk KERN_INFO "PWRD call successful\n" []])).
Proof.
  intros r evs lookup evaluate.
  assert (H : wp (gmux_call_acpi_pwrd arg) (gmux_data m) (fun r d' evs =>
    d' = gmux_data m
    /\ ((exists st out,
          ACPI_FAILURE st = true /\ r = - ENODEV
          /\ evs = [lookup st out;
                    EvPrintk KERN_ERR "Cannot get PWRD handle: %s\n"
                             [AStr (acpi_format_exception st)]])
       \/ (exists st out st2 out2,
             ACPI_FAILURE st = false /\ ACPI_FAILURE st2 = true /\ r = - ENODEV
             /\ evs = [lookup st out; evaluate (out_int 0 out) st2 out2;
                       EvPrintk KERN_ERR "PWRD call failed: %s\n"
                                [AStr (acpi_format_exception st2)]])
       \/ (exists st out st2 out2 k kout,
             ACPI_FAILURE st = false /\ ACPI_FAILURE st2 = false /\ r = 0
             /\ evs = [lookup st out; evaluate (out_int 0 out) st2 out2;
                       EvCall "kfree" [AInt (out_int 0 out2)] k kout;
                       EvPrintk KERN_INFO "PWRD call successful\n" []])))).
  { unfold gmux_call_acpi_pwrd, pr_err, pr_info. cbv zeta.
    repeat wp_step; (split; [reflexivity|]); cbn [app].
    - left. do 2 eexists. repeat split; eassumption.
    - right; left. do 4 eexists. repeat split; eassumption.
    - right; right. do 6 eexists. repeat split; eassumption. }
  destruct (wp_sound _ _ _ m H eq_refl) as ((Hd & Hc) & _).
  split; assumption.
Qed.

End RemoveAndFirmware.

Section SwitchAndBrightness.
Context {abi : kernel_abi}.

Lemma emitted_add (evs : list event) (m : machine) : emitted m (add_events evs m) = evs.
Proof.
  unfold emitted; cbn. rewrite skipn_app, Nat.sub_diag, skipn_all. reflexivity.
Qed.

(** [gmux_switchddc] moves the DDC line and nothing else: it returns 0, and
    its one register write is the first of the three writes [gmux_switchto]
    performs for the same client (DDC-switch = 1 for the integrated client,
    2 for any other). *)
Theorem gmux_switchddc_is_first_write_of_switchto (id : Z) (m : machine) :
  fst (gmux_switchddc id m) = 0
  /\ writes (emitted m (snd (gmux_switchddc id m)))
     = [(iostart (gmux_data m) + 0x28, if id =? VGA_SWITCHEROO_IGD then 1 else 2)]
  /\ writes (emitted m (snd (gmux_switchddc id m)))
     = firstn 1 (writes (emitted m (snd (gmux_switchto id m))))
  /\ gmux_data (snd (gmux_switchddc id m)) = gmux_data m.
Proof.
  rewrite gmux_switchddc_run, gmux_switchto_run. cbn [fst snd].
  rewrite !emitted_add.
  destruct (id =? VGA_SWITCHEROO_IGD); repeat split.
Qed.

(** [gmux_get_brightness] performs one 32-bit read at 0x74 and no write, and
    whatever the hardware answers its result lies between 0 and 0xffffff. *)
Theorem gmux_get_brightness_bounds (bd : backlight_device) (m : machine) :
  0 <= fst (gmux_get_brightness bd m) <= GMUX_MAX_BRIGHTNESS
  /\ writes (emitted m (snd (gmux_get_brightness bd m))) = []
  /\ accesses (emitted m (snd (gmux_get_brightness bd m)))
     = [(iostart (gmux_data m) + 0x74, 4)]
  /\ gmux_data (snd (gmux_get_brightness bd m)) = gmux_data m.
Proof.
  rewrite gmux_get_brightness_run. cbn [fst snd]. rewrite emitted_add.
  split; [|repeat split].
  rewrite land_brightness_mask.
  set (x := _ mod 2 ^ 24).
  assert (Hx : 0 <= x < 2 ^ 24) by (apply Z.mod_pos_bound; lia).
  unfold to_int, GMUX_MAX_BRIGHTNESS, GMUX_BRIGHTNESS_MASK.
  rewrite Z.mod_small by lia. lia.
Qed.

Lemma bytes_assemble_mod (x : Z) :
  0 <= x ->
  x mod 256 + Z.shiftl (Z.shiftr x 8 mod 256) 8
  + Z.shiftl (Z.shiftr x 16 mod 256) 16 + Z.shiftl 0 24 = x mod 2 ^ 24.
Proof.
  intros Hx.
  rewrite !Z.shiftr_div_pow2, !Z.shiftl_mul_pow2 by lia.
  change (2 ^ 8) with 256; change (2 ^ 16) with 65536; change (2 ^ 24) with 16777216.
  Z.div_mod_to_equations. lia.
Qed.

(** A brightness that does not fit 24 bits is truncated, not clamped: on a
    register file that reflects writes, [gmux_get_brightness] right after
    [gmux_update_status] returns the requested value modulo 2^24, for every
    int value of the brightness property (negative ones included). *)
Theorem gmux_brightness_truncates (v mx : Z) d init calls t :
  let bd := {| props := {| brightness := v; max_brightness := mx |} |} in
  fst (bind (gmux_update_status bd) (fun _ => gmux_get_brightness bd)
            {| gmux_data := d; world := register_file init calls; trace := t |})
  = v mod 2 ^ 24.
Proof.
  intros bd. rewrite bind_run, gmux_update_status_run. subst bd. cbn [props brightness].
  unfold gmux_get_brightness. run.
  cbn [world gmux_data trace iostart env_inl register_file add_events].
  rewrite !reg_byte_app. cbn [fold_left]. unfold GMUX_PORT_BRIGHTNESS.
  repeat match goal with
         | |- context [?a =? ?b] => destruct (Z.eqb_spec a b); try lia
         end.
  assert (Hu : 0 <= u32 v < 2 ^ 32) by (unfold u32; apply Z.mod_pos_bound; lia).
  unfold u8. rewrite bytes_assemble_mod by lia.
  assert (Hb : 0 <= u32 v mod 2 ^ 24 < 2 ^ 24) by (apply Z.mod_pos_bound; lia).
  assert (Hv : u32 v mod 2 ^ 24 = v mod 2 ^ 24).
  { unfold u32. change (2 ^ 32) with (2 ^ 24 * 2 ^ 8).
    rewrite Z.rem_mul_r by lia.
    rewrite Z.mul_comm, Z.mod_add by lia. apply Z.mod_mod. lia. }
  rewrite Hv in *.
  replace (u32 (v mod 2 ^ 24)) with (v mod 2 ^ 24)
    by (symmetry; unfold u32; apply Z.mod_small; lia).
  rewrite land_brightness_mask, Z.mod_mod by lia.
  unfold to_int. rewrite (Z.mod_small (_ + _)) by lia. lia.
Qed.

End SwitchAndBrightness.

Section SuspendRoundTrip.
Context {abi : kernel_abi}.

(** On hardware that reflects writes, suspend recovers what [gmux_switchto]
    routed: after [gmux_switchto id], [gmux_suspend] records the integrated
    client if [id] is the integrated client and the discrete client
    otherwise, and [gmux_resume] then repeats the register writes of that
    [gmux_switchto]. *)
Theorem gmux_suspend_after_switchto (id : Z) d init calls t :
  VGA_SWITCHEROO_DIS <> VGA_SWITCHEROO_IGD ->
  let m := {| gmux_data := d; world := register_file init calls; trace := t |} in
  let m1 := snd (gmux_switchto id m) in
  let m2 := snd (gmux_suspend m1) in
  resume_client_id (gmux_data m2)
    = (if id =? VGA_SWITCHEROO_IGD then VGA_SWITCHEROO_IGD else VGA_SWITCHEROO_DIS)
  /\ writes (emitted m2 (snd (gmux_resume m2)))
     = writes (emitted m (snd (gmux_switchto id m))).
Proof.
  intros Hne m m1 m2.
  assert (Hread : fst (gmux_read8 GMUX_PORT_SWITCH_DISPLAY m1)
                  = if id =? VGA_SWITCHEROO_IGD then 2 else 3).
  { subst m1. rewrite gmux_switchto_run. cbn [snd]. rewrite gmux_read8_run. cbn [fst].
    subst m. cbn [world gmux_data trace iostart env_inb register_file add_events].
    rewrite reg_byte_app.
    unfold GMUX_PORT_SWITCH_DISPLAY, GMUX_PORT_SWITCH_DDC, GMUX_PORT_SWITCH_EXTERNAL.
    destruct (id =? VGA_SWITCHEROO_IGD); cbn [fold_left];
      repeat match goal with
             | |- context [?a =? ?b] => destruct (Z.eqb_spec a b); try lia
             end; reflexivity. }
  assert (Hrec : resume_client_id (gmux_data m2)
                 = if id =? VGA_SWITCHEROO_IGD then VGA_SWITCHEROO_IGD
                   else VGA_SWITCHEROO_DIS).
  { subst m2. unfold gmux_suspend. rewrite !bind_run. cbn [snd fst put_data get_data].
    cbn [gmux_data set_gmux_data set_resume_client_id resume_client_id].
    rewrite Hread. destruct (id =? VGA_SWITCHEROO_IGD); reflexivity. }
  split; [exact Hrec|].
  rewrite gmux_resume_run. cbn [snd]. rewrite Hrec.
  rewrite !gmux_switchto_run. cbn [snd]. rewrite !emitted_add.
  assert (Hio : iostart (gmux_data m2) = iostart (gmux_data m)).
  { subst m2 m1. unfold gmux_suspend. rewrite !bind_run. cbn [snd fst put_data get_data].
    cbn [gmux_data set_gmux_data set_resume_client_id iostart].
    rewrite gmux_read8_run. cbn [snd]. rewrite gmux_switchto_run. reflexivity. }
  rewrite Hio.
  apply Z.eqb_neq in Hne.
  destruct (id =? VGA_SWITCHEROO_IGD); rewrite ?Z.eqb_refl, ?Hne; reflexivity.
Qed.

End SuspendRoundTrip.

Section Part000Handler.
Context {abi : kernel_abi}.

(** The earlier handler acknowledges like the later one (read status,
    disable, log, read again, write that value back, read a third time with
    a diagnostic when non-zero, enable) and returns 0, but it fulfils the
    completion only when the first status read is exactly 4: a status with
    the power bit and any other bit set is ignored. *)
Theorem part000_gpe_handler_steps (m : machine) :
  let st := iostart (gmux_data m) + 0x16 in
  let en := iostart (gmux_data m) + 0x14 in
  exists s0 s1 s2,
    fst (Part000.gmux_gpe_handler m) = 0
    /\ emitted m (snd (Part000.gmux_gpe_handler m)) =
       [EvInb st s0; EvOutb 0 en;
        EvPrintk KERN_INFO "gmux: gpe handler called: status %d\n" [AInt s0];
        EvInb st s1; EvOutb s1 st; EvInb st s2]
       ++ (if s2 =? 0 then []
           else [EvPrintk KERN_INFO
                   "gmux: error: activate_status, old_status %d new_status %d\n"
                   [AInt s1; AInt s2]])
       ++ [EvOutb 0xff en]
       ++ (if s0 =? 4 then [EvComplete] else []).
Proof.
  intros st en.
  assert (H : wp Part000.gmux_gpe_handler (gmux_data m) (fun r d' evs =>
    exists s0 s1 s2,
      r = 0
      /\ evs =
         [EvInb st s0; EvOutb 0 en;
          EvPrintk KERN_INFO "gmux: gpe handler called: status %d\n" [AInt s0];
          EvInb st s1; EvOutb s1 st; EvInb st s2]
         ++ (if s2 =? 0 then []
             else [EvPrintk KERN_INFO
                     "gmux: error: activate_status, old_status %d new_status %d\n"
                     [AInt s1; AInt s2]])
         ++ [EvOutb 0xff en]
         ++ (if s0 =? 4 then [EvComplete] else []))).
  { unfold Part000.gmux_gpe_handler, Part000.gmux_interrupt_activate_status,
      gmux_interrupt_get_status, gmux_disable_interrupts, gmux_enable_interrupts,
      pr_info, complete.
    repeat wp_step.
    all: change GMUX_INTERRUPT_STATUS_POWER with 4 in *.
    all: repeat match goal with
                | H : negb _ = true |- _ => apply negb_true_iff in H
                | H : negb _ = false |- _ => apply negb_false_iff in H
                end.
    all: subst st en.
    all: unfold GMUX_PORT_INTERRUPT_STATUS, GMUX_PORT_INTERRUPT_ENABLE,
           GMUX_INTERRUPT_DISABLE, GMUX_INTERRUPT_ENABLE.
    all: repeat match goal with
                | H : 0 <= ?a < 256 |- context [u8 ?a] => rewrite (u8_small a H)
                end.
    all: match goal with
         | H0 : 0 <= ?a < 256, H1 : 0 <= ?b < 256, H2 : 0 <= ?c < 256 |- _ =>
             exists a, b, c; split; [reflexivity|];
             repeat match goal with H : (_ =? _) = _ |- _ => rewrite H end;
             reflexivity
         end. }
  destruct (wp_sound _ _ _ m H eq_refl) as ((s0 & s1 & s2 & Hr & He) & _).
  exists s0, s1, s2. split; assumption.
Qed.

End Part000Handler.

Section Part000ProbeSummary.
Context {abi : kernel_abi}.

Lemma part000_gmux_probe_summary (pnp : pnp_dev) d :
  0 < ENXIO -> 0 < ENODEV -> 0 < ENOMEM ->
  wp (Part000.gmux_probe pnp) d part000_probe_summary.
Proof.
  intros Hx Hn Hm.
  unfold Part000.gmux_probe, Part000.err_switcheroo, Part000.err_enable_gpe,
    Part000.err_release, Part000.err_free, release_region,
    backlight_device_unregister, gmux_enable_interrupts,
    gmux_get_brightness, gmux_update_status, pr_info, pr_err.
  cbv zeta.
  repeat wp_step.
  all: unfold part000_probe_summary.
  all: cbn -[IS_ERR ACPI_FAILURE to_int Z.min Z.add Z.sub ulong u8 u32 Z.land Z.shiftr Z.opp].
  all: use_tests.
  all: cbn [negb andb app flat_map map].
  all: unfold GMUX_PORT_VERSION_MAJOR, GMUX_PORT_VERSION_MINOR, GMUX_PORT_VERSION_RELEASE,
    GMUX_PORT_MAX_BRIGHTNESS, GMUX_PORT_BRIGHTNESS, GMUX_PORT_INTERRUPT_ENABLE,
    GMUX_MIN_IO_LEN, GMUX_INTERRUPT_ENABLE in *.
  all: unfold GMUX_PORT_BRIGHTNESS in *.
  all: try match goal with H : IS_ERR _ = true |- _ => apply IS_ERR_to_int in H end.
  all: tests_to_props.
  all: repeat match goal with |- _ /\ _ => split end.
  all: try (intros; exfalso; lia).
  all: try reflexivity.
  all: try (intros; discriminate).
  all: try lia.
  all: try solve [intros _; repeat split; reflexivity].
  all: try solve [repeat (constructor;
                          [ left; unfold in_window; cbn [fst snd]; lia | ]);
                  constructor].
  all: try solve [intros _; split;
                  [ match goal with
                    | |- exists pre, ?L = pre ++ _ => exists (removelast L); reflexivity
                    end
                  | repeat split; try reflexivity; try lia; eexists; reflexivity ]].
Qed.

Lemma part000_gmux_probe_facts (pnp : pnp_dev) (m : machine) :
  0 < ENXIO -> 0 < ENODEV -> 0 < ENOMEM ->
  part000_probe_summary (fst (Part000.gmux_probe pnp m))
                        (gmux_data (snd (Part000.gmux_probe pnp m)))
                        (emitted m (snd (Part000.gmux_probe pnp m))).
Proof.
  intros Hx Hn Hm.
  apply (wp_sound _ _ _ m (part000_gmux_probe_summary pnp (gmux_data m) Hx Hn Hm) eq_refl).
Qed.

(** A failed probe of the earlier revision gives back the memory and the
    port region. Its [kfree] calls are, in order, the name buffer
    [acpi_get_name] handed out (if the probe got that far) and then, last,
    the driver data it allocated; it releases exactly the region it was
    granted; a probe whose allocation failed does nothing else and returns
    -ENOMEM. *)
Theorem part000_probe_failure_frees (pnp : pnp_dev) (m : machine) :
  0 < ENXIO -> 0 < ENODEV -> 0 < ENOMEM ->
  fst (Part000.gmux_probe pnp m) <> 0 ->
  let evs := emitted m (snd (Part000.gmux_probe pnp m)) in
  freed evs = name_buffers evs ++ map AInt (allocated evs)
  /\ releases evs = grants evs
  /\ (allocated evs = [] ->
      fst (Part000.gmux_probe pnp m) = - ENOMEM /\ List.length evs = 1%nat).
Proof.
  intros Hx Hn Hm Hr evs.
  destruct (part000_gmux_probe_facts pnp m Hx Hn Hm) as (_ & Hf & _ & Ha & _).
  destruct (Hf Hr) as (Hrel & Hfree & _).
  fold evs in Ha. repeat split; try assumption; apply (Ha H).
Qed.

(** What a failed probe of the earlier revision leaves behind: the backlight
    device it registered is unregistered only if the GPE handler had been
    installed (a missing ACPI handle or a failed installation leaves it
    registered); the GPE handler it installed is removed only if the GPE had
    been enabled (a failed enable leaves the handler installed); and the GPE
    is never disabled again. *)
Theorem part000_probe_failure_leaks (pnp : pnp_dev) (m : machine) :
  0 < ENXIO -> 0 < ENODEV -> 0 < ENOMEM ->
  fst (Part000.gmux_probe pnp m) <> 0 ->
  let evs := emitted m (snd (Part000.gmux_probe pnp m)) in
  unregistered evs = match gpe_installed evs with
                     | [] => []
                     | _ => registered evs
                     end
  /\ gpe_removed evs = match gpe_enabled evs with
                       | [] => []
                       | _ => gpe_installed evs
                       end
  /\ called "acpi_disable_gpe" evs = false.
Proof.
  intros Hx Hn Hm Hr evs.
  destruct (part000_gmux_probe_facts pnp m Hx Hn Hm) as (_ & Hf & _ & _ & Hd).
  destruct (Hf Hr) as (_ & _ & Hun & Hrm).
  repeat split; assumption.
Qed.

(** A successful probe of the earlier revision holds one allocation (the
    driver data), one granted region of at least the minimum length, one
    registered backlight device (bdev) and the GPE 0x16 with its handler
    installed and enabled. Its only [kfree] is of the one name buffer
    [acpi_get_name] handed out: the driver data is kept. It released,
    unregistered and removed nothing, and its last action is enabling
    interrupts. *)
Theorem part000_probe_success (pnp : pnp_dev) (m : machine) :
  0 < ENXIO -> 0 < ENODEV -> 0 < ENOMEM ->
  fst (Part000.gmux_probe pnp m) = 0 ->
  let d' := gmux_data (snd (Part000.gmux_probe pnp m)) in
  let evs := emitted m (snd (Part000.gmux_probe pnp m)) in
  (exists pre, evs = pre ++ [EvOutb 255 (iostart d' + 0x14)])
  /\ grants evs = [(iostart d', iolen d')]
  /\ registered evs = [bdev d']
  /\ gpe_installed evs = [0x16] /\ gpe_enabled evs = [0x16]
  /\ GMUX_MIN_IO_LEN <= iolen d'
  /\ (exists p, allocated evs = [p])
  /\ freed evs = name_buffers evs
  /\ List.length (name_buffers evs) = 1%nat
  /\ releases evs = [] /\ unregistered evs = []
  /\ gpe_removed evs = [].
Proof.
  intros Hx Hn Hm Hr.
  destruct (part000_gmux_probe_facts pnp m Hx Hn Hm) as (Hs & _).
  apply (Hs Hr).
Qed.

End Part000ProbeSummary.

(** ** Concrete probe runs *)

(** On [constant_platform 1] the region is granted and the backlight
    registers, then installing the handler fails (status 1): the probe
    fails after acquiring resources. *)

Lemma gmux_probe_failure_releases_region_witness :
  releases (emitted (boot (constant_platform 1) 0)
              (snd (gmux_probe (abi := linux_abi) apple_pnp (boot (constant_platform 1) 0))))
  = grants (emitted (boot (constant_platform 1) 0)
              (snd (gmux_probe (abi := linux_abi) apple_pnp (boot (constant_platform 1) 0)))).
Proof.
  apply (gmux_probe_failure_releases_region (abi := linux_abi) apple_pnp
           (boot (constant_platform 1) 0)).
  - cbn; lia.
  - cbn; lia.
  - vm_compute; discriminate.
Defined.

(** On [switcheroo_refusing_platform] the notify handler is installed on
    the device's handle (1) and the probe then fails: the handler is removed
    from that handle. *)
Lemma gmux_probe_failure_removes_handler_witness :
  removed (emitted (boot switcheroo_refusing_platform 0)
             (snd (gmux_probe (abi := linux_abi) apple_pnp
                     (boot switcheroo_refusing_platform 0))))
  = [1].
Proof.
  eapply eq_trans.
  - apply (gmux_probe_failure_removes_handler (abi := linux_abi) apple_pnp
             (boot switcheroo_refusing_platform 0)).
    + cbn; lia.
    + cbn; lia.
    + vm_compute; discriminate.
  - vm_compute. reflexivity.
Defined.

(** With no ACPI handle the probe fails and the backlight device registered
    at 0x1000 is not unregistered. *)
Lemma gmux_probe_failure_backlight_witness :
  unregistered (emitted (boot working_platform 0)
                  (snd (gmux_probe (abi := linux_abi) apple_pnp_no_acpi
                          (boot working_platform 0))))
  = [].
Proof.
  apply (gmux_probe_failure_backlight (abi := linux_abi) apple_pnp_no_acpi
           (boot working_platform 0)).
  - cbn; lia.
  - cbn; lia.
  - vm_compute; discriminate.
Defined.

Lemma gmux_probe_success_witness :
  grants (emitted (boot working_platform 0)
            (snd (gmux_probe (abi := linux_abi) apple_pnp (boot working_platform 0))))
  = [(0x700, 0xff)]
  /\ registered (emitted (boot working_platform 0)
            (snd (gmux_probe (abi := linux_abi) apple_pnp (boot working_platform 0))))
  = [0x1000].
Proof.
  destruct (gmux_probe_success (abi := linux_abi) apple_pnp (boot working_platform 0)
              ltac:(cbn; lia) ltac:(cbn; lia) ltac:(vm_compute; reflexivity))
    as (_ & Hg & Hb & _).
  split.
  - rewrite Hg. vm_compute. reflexivity.
  - rewrite Hb. vm_compute. reflexivity.
Defined.

Lemma gmux_probe_ports_in_window_witness :
  Forall (fun a => Exists (fun g => in_window g a)
                     (grants (emitted (boot working_platform 0)
                                (snd (gmux_probe (abi := linux_abi) apple_pnp
                                        (boot working_platform 0)))))
                   /\ ulong (fst a) = fst a)
         (accesses (emitted (boot working_platform 0)
                      (snd (gmux_probe (abi := linux_abi) apple_pnp
                              (boot working_platform 0))))).
Proof.
  apply (gmux_probe_ports_in_window (abi := linux_abi) apple_pnp (boot working_platform 0)).
  - cbn; lia.
  - cbn; lia.
  - replace (grants _) with [(0x700, 0xff)] by (vm_compute; reflexivity).
    repeat constructor; cbn; lia.
Defined.

(** On [bright_platform] the hardware reports a maximum of 0x1ffffff and
    the backlight is registered with 0xffffff. *)
Lemma gmux_probe_max_brightness_capped_witness :
  register_max (emitted (boot bright_platform 0)
                  (snd (gmux_probe (abi := linux_abi) apple_pnp (boot bright_platform 0))))
  = [0xffffff].
Proof.
  eapply eq_trans.
  - exact (proj1 (gmux_probe_max_brightness_capped (abi := linux_abi) apple_pnp
                    (boot bright_platform 0) ltac:(cbn; lia) ltac:(cbn; lia))
                 (0x700, 0xff) ltac:(vm_compute; left; reflexivity)).
  - vm_compute. reflexivity.
Defined.

Lemma gmux_probe_brightness_write_back_witness :
  bl_writes 0x700 (emitted (boot working_platform 0)
                     (snd (gmux_probe (abi := linux_abi) apple_pnp
                             (boot working_platform 0))))
  = [(0x774, 0x45); (0x775, 0x23); (0x776, 0x01); (0x777, 0)].
Proof.
  eapply eq_trans.
  - exact (gmux_probe_brightness_write_back (abi := linux_abi) apple_pnp
             (boot working_platform 0) ltac:(cbn; lia) ltac:(cbn; lia)
             (0x700, 0xff) ltac:(vm_compute; left; reflexivity)).
  - vm_compute. reflexivity.
Defined.

Lemma gmux_remove_undoes_probe_witness :
  releases (emitted (snd (gmux_probe (abi := linux_abi) apple_pnp (boot working_platform 0)))
              (snd (gmux_remove (abi := linux_abi)
                      (snd (gmux_probe (abi := linux_abi) apple_pnp
                              (boot working_platform 0))))))
  = grants (emitted (boot working_platform 0)
              (snd (gmux_probe (abi := linux_abi) apple_pnp (boot working_platform 0)))).
Proof.
  apply (gmux_remove_undoes_probe (abi := linux_abi) apple_pnp (boot working_platform 0)).
  - cbn; lia.
  - cbn; lia.
  - vm_compute; reflexivity.
Defined.

Lemma gmux_suspend_after_switchto_witness :
  resume_client_id
    (gmux_data
       (snd (gmux_suspend (abi := linux_abi)
               (snd (gmux_switchto (abi := linux_abi) 0
                       {| gmux_data := gmux_data (boot (constant_platform 0) 0x700);
                          world := register_file (fun _ => 0) (fun _ _ _ => (0, []));
                          trace := [] |})))))
  = 0.
Proof.
  apply (gmux_suspend_after_switchto (abi := linux_abi) 0
           (gmux_data (boot (constant_platform 0) 0x700))
           (fun _ => 0) (fun _ _ _ => (0, [])) []).
  cbn; lia.
Defined.

(** The earlier probe on [constant_platform 1]: everything up to the GPE
    handler installation succeeds, the installation fails, and the
    backlight device registered at 1 stays registered; the (empty) name
    buffer and then the driver data at 1 are freed. *)
Lemma part000_probe_failure_frees_witness :
  freed (emitted (boot (constant_platform 1) 0)
           (snd (Part000.gmux_probe (abi := linux_abi) apple_pnp
                   (boot (constant_platform 1) 0))))
  = [AStr EmptyString; AInt 1].
Proof.
  rewrite (proj1 (part000_probe_failure_frees (abi := linux_abi) apple_pnp
                    (boot (constant_platform 1) 0)
                    ltac:(cbn; lia) ltac:(cbn; lia) ltac:(cbn; lia)
                    ltac:(vm_compute; discriminate))).
  vm_compute. reflexivity.
Defined.

Lemma part000_probe_failure_leaks_witness :
  unregistered (emitted (boot (constant_platform 1) 0)
                  (snd (Part000.gmux_probe (abi := linux_abi) apple_pnp
                          (boot (constant_platform 1) 0))))
  = []
  /\ registered (emitted (boot (constant_platform 1) 0)
                   (snd (Part000.gmux_probe (abi := linux_abi) apple_pnp
                           (boot (constant_platform 1) 0))))
     = [1].
Proof.
  split.
  - rewrite (proj1 (part000_probe_failure_leaks (abi := linux_abi) apple_pnp
                      (boot (constant_platform 1) 0)
                      ltac:(cbn; lia) ltac:(cbn; lia) ltac:(cbn; lia)
                      ltac:(vm_compute; discriminate))).
    vm_compute. reflexivity.
  - vm_compute. reflexivity.
Defined.

Lemma part000_probe_success_witness :
  grants (emitted (boot working_platform 0)
            (snd (Part000.gmux_probe (abi := linux_abi) apple_pnp (boot working_platform 0))))
  = [(0x700, 0xff)].
Proof.
  destruct (part000_probe_success (abi := linux_abi) apple_pnp (boot working_platform 0)
              ltac:(cbn; lia) ltac:(cbn; lia) ltac:(cbn; lia)
              ltac:(vm_compute; reflexivity))
    as (_ & Hg & _).
  rewrite Hg. vm_compute. reflexivity.
Defined.
